(** * go-gecko v3 client: request construction, status mapping, decoding

    A shallow embedding of [v3/v3.go] (package [coingecko]).  Every
    operation of the client builds one URL, issues at most one HTTP GET
    through the injected [*http.Client], maps the status code to an error
    and decodes the JSON body.

    Go values are modelled as follows.
    - [string] is [string] (a sequence of bytes), [[]byte] is [list byte],
      [int] is [Z], [bool] is [bool].
    - A pointer [*T] is [option T] ([None] is [nil]); a pair of results
      [(T, error)] is a Rocq pair whose second component is
      [option error] ([None] is the [nil] error).
    - [map[string]V] is [gmap string V]; reading a missing key gives the
      zero value, which is written out at each read.
    - The calls to [client.Do] are the only effect.  An operation is a
      tree [Prog A]: it returns, panics, or performs [client.Do] and
      continues with the answer.  [run] interprets a tree against a
      transport and records the requests that reached it. *)

From stdpp Require Import base strings gmap list sorting pretty.
From Stdlib Require Import ZArith Strings.Byte Strings.Ascii.

Local Open Scope Z_scope.
Local Open Scope string_scope.

(** * Part I: the program *)

(** ** What the file imports

    [Platform] gathers what [v3.go] takes from the Go standard library and
    cannot be written down here: the opaque types, the default client, the
    outcome of [url.Parse] on the request URL (the only way
    [http.NewRequestWithContext] fails for the method [GET] and a non-nil
    context), and [strings.ToLower]. *)

Class Platform : Type := {
  context_Context : Type;
  http_Client : Type;
  http_DefaultClient : http_Client;
  lib_err : Type;
  url_Parse_err : string -> option lib_err;
  strings_ToLower : string -> string;
  float32 : Type;
  float32_zero : float32
}.

(** The double-quote byte, for messages that contain it. *)
Definition dq : string := String (Ascii.ascii_of_nat 34) EmptyString.

(** ** Package-level variables (v3.go, lines 16-17) *)

Definition baseURL : string := "https://api.coingecko.com/api/v3".
Definition proURL : string := "https://pro-api.coingecko.com/api/v3".

(** ** Errors

    The source builds its own errors with [fmt.Errorf]; every other error
    comes out of a library ([net/http], [io], [net/url], [encoding/json])
    and is passed on untouched. *)

Inductive error `{Platform} : Type :=
| fmt_Errorf (msg : string)
| lib_error (e : lib_err).
Arguments fmt_Errorf {_} msg.
Arguments lib_error {_} e.

(** ** net/http data *)

(** [resp.Body]: what [ioutil.ReadAll] will find in it. *)
Record ReadCloser `{Platform} : Type := mkBody {
  rc_data : list byte;
  rc_err : option error
}.
Arguments mkBody {_} rc_data rc_err.

Definition ioutil_ReadAll `{Platform} (r : ReadCloser) : list byte * option error :=
  (rc_data r, rc_err r).

Record Response `{Platform} : Type := mkResponse {
  StatusCode : Z;
  Body : ReadCloser
}.
Arguments mkResponse {_} StatusCode Body.

Record Request `{Platform} : Type := mkRequest {
  req_ctx : context_Context;
  Method : string;
  URL : string;
  Header : gmap string (list string)
}.
Arguments mkRequest {_} req_ctx Method URL Header.

(** [http.NewRequestWithContext(ctx, method, url, nil)]. *)
Definition http_NewRequestWithContext `{Platform}
    (ctx : context_Context) (method url : string) : Request + error :=
  match url_Parse_err url with
  | Some e => inr (lib_error e)
  | None => inl (mkRequest ctx method url ∅)
  end.

(** ** Programs that call the transport *)

Inductive Prog `{Platform} (A : Type) : Type :=
| Ret (a : A)
| Panic (msg : string)
| Do (client : http_Client) (req : Request) (k : Response + error -> Prog A).
Arguments Ret {_ A} a.
Arguments Panic {_ A} msg.
Arguments Do {_ A} client req k.

Fixpoint bind `{Platform} {A B} (m : Prog A) (f : A -> Prog B) : Prog B :=
  match m with
  | Ret a => f a
  | Panic msg => Panic msg
  | Do client req k => Do client req (fun r => bind (k r) f)
  end.

Notation "x <- m ;; k" := (bind m (fun x => k))
  (at level 100, m at next level, right associativity).

(** How a call ends: with its results, or in a run-time panic. *)
Inductive Outcome (A : Type) : Type :=
| Returned (a : A)
| Panicked (msg : string).
Arguments Returned {A} a.
Arguments Panicked {A} msg.

(** A transport with state [W] answers each [client.Do]. *)
Definition Transport `{Platform} (W : Type) : Type :=
  http_Client -> Request -> W -> (Response + error) * W.

(** [run] gives the outcome, the requests handed to the transport, oldest
    first, and the transport's final state. *)
Fixpoint run `{Platform} {A W} (tr : Transport W) (p : Prog A) (w : W)
  : Outcome A * list Request * W :=
  match p with
  | Ret a => (Returned a, [], w)
  | Panic msg => (Panicked msg, [], w)
  | Do client req k =>
      let '(r, w1) := tr client req w in
      let '(o, log, w2) := run tr (k r) w1 in
      (o, req :: log, w2)
  end.

Definition outcome `{Platform} {A W} (tr : Transport W) (p : Prog A) (w : W)
  : Outcome A :=
  (run tr p w).1.1.

Definition requests `{Platform} {A W} (tr : Transport W) (p : Prog A) (w : W)
  : list Request :=
  (run tr p w).1.2.

(** A program that ends without calling the transport. *)
Definition pure `{Platform} {A} (p : Prog A) : Prop :=
  match p with
  | Do _ _ _ => False
  | _ => True
  end.

(** Reading a field through a nil pointer. *)
Definition nil_dereference : string :=
  "invalid memory address or nil pointer dereference".

(** ** fmt *)

(** [fmt.Sprintf("%d", n)] for an [int]. *)
Definition fmt_d (n : Z) : string := pretty n.

(** [fmt.Sprintf("%v", b)] for a [bool]. *)
Definition fmt_v_bool (b : bool) : string := if b then "true" else "false".

(** ** strings *)

(** [strings.Join(elems, sep)]. *)
Definition strings_Join (elems : list string) (sep : string) : string :=
  String.concat sep elems.

(** ** net/url: [Values], [QueryEscape], [Encode] *)

Module url.

(** [url.Values] is [map[string][]string]. *)
Abbreviation Values := (gmap string (list string)).

(** [v.Add(key, value)]: append to the values of [key]. *)
Definition Add (v : Values) (key value : string) : Values :=
  <[key := (default [] (v !! key) ++ [value])%list]> v.

(** [v.Set(key, value)]: replace the values of [key]. *)
Definition Set_ (v : Values) (key value : string) : Values :=
  <[key := [value]]> v.

Definition in_range (lo hi c : ascii) : bool :=
  ((Ascii.N_of_ascii lo <=? Ascii.N_of_ascii c)
   && (Ascii.N_of_ascii c <=? Ascii.N_of_ascii hi))%N.

(** [shouldEscape(c, encodeQueryComponent)]: everything but the unreserved
    characters of RFC 3986 is escaped. *)
Definition shouldEscape (c : ascii) : bool :=
  if in_range "a" "z" c || in_range "A" "Z" c || in_range "0" "9" c then false
  else if bool_decide (c ∈ ["-"; "_"; "."; "~"]%char) then false
  else true.

(** The digit [upperhex[n]], for [n < 16]. *)
Definition upperhex (n : N) : ascii :=
  default "0"%char (String.get (N.to_nat n) "0123456789ABCDEF").

(** [escape(s, encodeQueryComponent)]: a space becomes [+], any other
    escaped byte becomes [%XX]. *)
Fixpoint QueryEscape (s : string) : string :=
  match s with
  | EmptyString => EmptyString
  | String c s' =>
      if shouldEscape c then
        if Ascii.eqb c " " then String "+" (QueryEscape s')
        else String "%" (String (upperhex (N.shiftr (Ascii.N_of_ascii c) 4))
                          (String (upperhex (N.land (Ascii.N_of_ascii c) 15))
                             (QueryEscape s')))
      else String c (QueryEscape s')
  end.

(** The escaped key and value of each pair [Encode] writes, in its order:
    keys sorted, the values of one key in the order they were added. *)
Definition Encode_fields (v : Values) : list (string * string) :=
  k ← merge_sort String.le (map fst (map_to_list v));
  (fun x => (QueryEscape k, QueryEscape x)) <$> default [] (v !! k).

(** [v.Encode()]: the pairs as [key=value], joined by [&]. *)
Definition Encode (v : Values) : string :=
  String.concat "&" ((fun f => f.1 +:+ "=" +:+ f.2) <$> Encode_fields v).

(** [strings.Cut(s, sep)] for a one-byte separator: the text before the
    first [sep] and the text after it ([s] and the empty string when there
    is none). *)
Fixpoint Cut (sep : ascii) (s : string) : string * string :=
  match s with
  | EmptyString => (EmptyString, EmptyString)
  | String c s' =>
      if Ascii.eqb c sep then (EmptyString, s')
      else let '(a, b) := Cut sep s' in (String c a, b)
  end.

(** The segments of [s] between occurrences of [sep]. *)
Fixpoint segments (sep : ascii) (s : string) : list string :=
  match s with
  | EmptyString => [EmptyString]
  | String c s' =>
      if Ascii.eqb c sep then EmptyString :: segments sep s'
      else match segments sep s' with
           | x :: r => String c x :: r
           | [] => [String c EmptyString]
           end
  end.

(** The fields of a query string as the server splits it (the loop of
    [url.ParseQuery] before unescaping): the non-empty segments between
    [&], each cut at its first [=]. *)
Definition query_fields (q : string) : list (string * string) :=
  Cut "=" <$> filter (fun seg => seg ≠ EmptyString) (segments "&" q).

(** The field [Encode] writes for the value [x] of the key [k]. *)
Definition field (k x : string) : string * string := (QueryEscape k, QueryEscape x).

(** A pair of escaped texts. *)
Definition escaped (f : string * string) : Prop := ∃ k x, f = field k x.

(** The keys of a query string. *)
Definition query_keys (q : string) : list string := (query_fields q).*1.

(** The byte [c] occurs in [s]. *)
Fixpoint occurs (c : ascii) (s : string) : bool :=
  match s with
  | EmptyString => false
  | String c' s' => Ascii.eqb c' c || occurs c s'
  end.

(** The [RawQuery] of [url.Parse(rawURL)] when it succeeds: the fragment
    is cut off at the first [#], and the query is the text after the first
    [?] of what is left.  It is what the request carries as its query. *)
Definition RawQuery (rawURL : string) : string :=
  (Cut "?" (Cut "#" rawURL).1).2.

(** A text without [?] and without [#]: put in a path, it starts neither a
    query nor a fragment. *)
Definition plain (s : string) : Prop :=
  occurs "?" s = false /\ occurs "#" s = false.

End url.

(** ** encoding/json

    [json.Unmarshal(data, &v)] is taken per target type: it reads the
    body, starts from the value [v] holds, and gives the value it leaves
    in [v] with its error. *)

Class Unmarshal `{Platform} (T : Type) : Type :=
  json_Unmarshal : list byte -> T -> T * option error.

(** ** The repository's packages [format] and [v3/types]

    Their declarations are not part of this file's source; [v3.go] fixes
    how they are used.  Of the response types only the fields [v3.go]
    reads are given.  A slice is an [option (list _)], [None] being the
    nil slice. *)

(** Modelled from the spec: [format.Bool2String], whose source is missing.
    The spec has the flags "serialized as the literal strings
    true/false". *)
Definition format_Bool2String (b : bool) : string :=
  if b then "true" else "false".

Class Packages `{Platform} : Type := {
  format_Int2String : Z -> string;
  types_MarketCapDesc : string;
  types_Ping : Type;
  types_SimpleSupportedVSCurrencies : Type;
  types_CoinList : Type;
  types_CoinsMarket : Type;
  types_CoinsID : Type;
  types_CoinsIDTickers : Type;
  types_CoinsIDHistory : Type;
  types_CoinsIDMarketChart : Type;
  CoinsIDMarketChart_zero : types_CoinsIDMarketChart;
  types_EventCountryItem : Type;
  types_EventsCountries : Type;
  EventsCountries_Data : types_EventsCountries -> option (list types_EventCountryItem);
  types_EventsTypes : Type;
  types_ExchangeRatesItem : Type;
  types_ExchangeRatesResponse : Type;
  ExchangeRatesResponse_Rates : types_ExchangeRatesResponse -> types_ExchangeRatesItem;
  types_AssetPlatforms : Type;
  AssetPlatforms_nil : types_AssetPlatforms;
  types_Global : Type;
  types_GlobalResponse : Type;
  GlobalResponse_Data : types_GlobalResponse -> types_Global;
  Unmarshal_Ping :: Unmarshal (option types_Ping);
  Unmarshal_prices :: Unmarshal (gmap string (gmap string float32));
  Unmarshal_SimpleSupportedVSCurrencies ::
    Unmarshal (option types_SimpleSupportedVSCurrencies);
  Unmarshal_CoinList :: Unmarshal (option types_CoinList);
  Unmarshal_CoinsMarket :: Unmarshal (option types_CoinsMarket);
  Unmarshal_CoinsID :: Unmarshal (option types_CoinsID);
  Unmarshal_CoinsIDTickers :: Unmarshal (option types_CoinsIDTickers);
  Unmarshal_CoinsIDHistory :: Unmarshal (option types_CoinsIDHistory);
  Unmarshal_CoinsIDMarketChart :: Unmarshal types_CoinsIDMarketChart;
  Unmarshal_EventsCountries :: Unmarshal (option types_EventsCountries);
  Unmarshal_EventsTypes :: Unmarshal (option types_EventsTypes);
  Unmarshal_ExchangeRatesResponse :: Unmarshal (option types_ExchangeRatesResponse);
  Unmarshal_AssetPlatforms :: Unmarshal types_AssetPlatforms;
  Unmarshal_GlobalResponse :: Unmarshal (option types_GlobalResponse)
}.

(** [types.SimpleSinglePrice], as the composite literal at line 116 fills it. *)
Record types_SimpleSinglePrice `{Platform} : Type := mkSimpleSinglePrice {
  ID : string;
  Currency : string;
  MarketPrice : float32
}.
Arguments mkSimpleSinglePrice {_} ID Currency MarketPrice.

(** The cell [(id, currency)] of a price table: the value of [t[id][currency]]
    when both keys are present. *)
Definition cell {V : Type} (t : gmap string (gmap string V)) (id currency : string)
  : option V :=
  t !! id ≫= (.!! currency).

(** ** The client (v3.go, lines 19-41) *)

Record Client `{Platform} : Type := mkClient {
  httpClient : http_Client;
  apiKey : string;
  url : string
}.
Arguments mkClient {_} httpClient apiKey url.

(** The [httpClient] argument is a [*http.Client] and may be nil. *)
Definition NewClientWithURL `{Platform}
    (httpClient : option http_Client) (url apiKey : string) : Client :=
  let httpClient :=
    match httpClient with
    | None => http_DefaultClient
    | Some cl => cl
    end in
  mkClient httpClient apiKey url.

Definition NewClient `{Platform} (httpClient : option http_Client) (apiKey : string)
  : Client :=
  let url := baseURL in
  let url := if bool_decide (apiKey ≠ "") then proURL else url in
  NewClientWithURL httpClient url apiKey.

(** ** The request helpers (v3.go, lines 43-84) *)

(** [fmt.Sprintf(`{"status": {"error_code": %d}}`, code)], the format string
    of line 59. *)
Definition error_code_message (code : Z) : string :=
  "{" +:+ dq +:+ "status" +:+ dq +:+ ": {" +:+ dq +:+ "error_code" +:+ dq +:+ ": " +:+
  fmt_d code +:+ "}}".

(** [defer resp.Body.Close()] has no effect on the results and is left out. *)
Definition doReq `{Platform} (req : Request) (client : http_Client)
  : Prog (list byte * option error) :=
  Do client req (fun r =>
    match r with
    | inr err => Ret ([], Some err)
    | inl resp =>
        let '(body, err) := ioutil_ReadAll (Body resp) in
        match err with
        | Some err => Ret ([], Some err)
        | None =>
            if bool_decide (200 ≠ StatusCode resp) then
              if bool_decide (length body ≠ 0%nat) then
                Ret ([], Some (fmt_Errorf (String.string_of_list_byte body)))
              else
                Ret ([], Some (fmt_Errorf (error_code_message (StatusCode resp))))
            else Ret (body, None)
        end
    end).

Definition MakeReq `{Platform} (c : Client) (ctx : context_Context) (url : string)
  : Prog (list byte * option error) :=
  match http_NewRequestWithContext ctx "GET" url with
  | inr err => Ret ([], Some err)
  | inl req =>
      let req :=
        if bool_decide (apiKey c ≠ "") then
          mkRequest (req_ctx req) (Method req) (URL req)
            {[ "X-Cg-Pro-Api-Key" := [apiKey c] ]}
        else req in
      r <- doReq req (httpClient c) ;;
      match r with
      | (_, Some err) => Ret ([], Some err)
      | (resp, None) => Ret (resp, None)
      end
  end.

(** ** The API (v3.go, lines 86-402)

    The URL each operation builds is given a name of its own,
    [<Operation>_url]; the operation's body is the source's, statement by
    statement. *)

(** *** Ping /ping *)

Definition Ping_url `{Platform} (c : Client) : string := url c +:+ "/ping".

Definition Ping `{Packages} (c : Client) (ctx : context_Context)
  : Prog (option types_Ping * option error) :=
  r <- MakeReq c ctx (Ping_url c) ;;
  match r with
  | (_, Some err) => Ret (None, Some err)
  | (resp, None) =>
      let '(data, err) := json_Unmarshal resp (None : option types_Ping) in
      match err with
      | Some err => Ret (None, Some err)
      | None => Ret (data, None)
      end
  end.

(** *** SimplePrice /simple/price, several ids and currencies *)

Definition SimplePrice_url `{Platform} (c : Client) (ids vsCurrencies : list string)
  : string :=
  let params : url.Values := ∅ in
  let idsParam := strings_Join ids "," in
  let vsCurrenciesParam := strings_Join vsCurrencies "," in
  let params := url.Add params "ids" idsParam in
  let params := url.Add params "vs_currencies" vsCurrenciesParam in
  url c +:+ "/simple/price?" +:+ url.Encode params.

Definition SimplePrice `{Packages} (c : Client) (ctx : context_Context)
    (ids vsCurrencies : list string)
  : Prog (option (gmap string (gmap string float32)) * option error) :=
  r <- MakeReq c ctx (SimplePrice_url c ids vsCurrencies) ;;
  match r with
  | (_, Some err) => Ret (None, Some err)
  | (resp, None) =>
      let t : gmap string (gmap string float32) := ∅ in
      let '(t, err) := json_Unmarshal resp t in
      match err with
      | Some err => Ret (None, Some err)
      | None => Ret (Some t, None)
      end
  end.

(** *** SimpleSinglePrice /simple/price, one id and one currency

    [t] is never nil when [err] is nil; the case is kept as the panic the
    dereference [*t] would be. *)

Definition SimpleSinglePrice `{Packages} (c : Client) (ctx : context_Context)
    (id vsCurrency : string)
  : Prog (option types_SimpleSinglePrice * option error) :=
  let idParam := [strings_ToLower id] in
  let vcParam := [strings_ToLower vsCurrency] in
  r <- SimplePrice c ctx idParam vcParam ;;
  match r with
  | (_, Some err) => Ret (None, Some err)
  | (None, None) => Panic nil_dereference
  | (Some t, None) =>
      let curr : gmap string float32 := default ∅ (t !! id) in
      if bool_decide (size curr = 0%nat) then
        Ret (None, Some (fmt_Errorf "id or vsCurrency not existed"))
      else
        let data :=
          mkSimpleSinglePrice id vsCurrency
            (default float32_zero (curr !! vsCurrency)) in
        Ret (Some data, None)
  end.

(** *** SimpleSupportedVSCurrencies /simple/supported_vs_currencies *)

Definition SimpleSupportedVSCurrencies_url `{Platform} (c : Client) : string :=
  url c +:+ "/simple/supported_vs_currencies".

Definition SimpleSupportedVSCurrencies `{Packages} (c : Client) (ctx : context_Context)
  : Prog (option types_SimpleSupportedVSCurrencies * option error) :=
  r <- MakeReq c ctx (SimpleSupportedVSCurrencies_url c) ;;
  match r with
  | (_, Some err) => Ret (None, Some err)
  | (resp, None) =>
      let '(data, err) :=
        json_Unmarshal resp (None : option types_SimpleSupportedVSCurrencies) in
      match err with
      | Some err => Ret (None, Some err)
      | None => Ret (data, None)
      end
  end.

(** *** CoinsList /coins/list *)

Definition CoinsList_url `{Platform} (c : Client) (includePlatform : bool) : string :=
  let params : url.Values := ∅ in
  let params := url.Set_ params "include_platform" (fmt_v_bool includePlatform) in
  url c +:+ "/coins/list?" +:+ url.Encode params.

Definition CoinsList `{Packages} (c : Client) (ctx : context_Context)
    (includePlatform : bool)
  : Prog (option types_CoinList * option error) :=
  r <- MakeReq c ctx (CoinsList_url c includePlatform) ;;
  match r with
  | (_, Some err) => Ret (None, Some err)
  | (resp, None) =>
      let '(data, err) := json_Unmarshal resp (None : option types_CoinList) in
      match err with
      | Some err => Ret (None, Some err)
      | None => Ret (data, None)
      end
  end.

(** *** CoinsMarket /coins/markets *)

Definition CoinsMarket_params `{Packages} (vsCurrency : string) (ids : list string)
    (order : string) (perPage page : Z) (sparkline : bool)
    (priceChangePercentage : list string) : url.Values :=
  let params : url.Values := ∅ in
  let params := url.Add params "vs_currency" vsCurrency in
  let order :=
    if bool_decide (String.length order = 0%nat) then types_MarketCapDesc
    else order in
  let params := url.Add params "order" order in
  let params :=
    if bool_decide (length ids ≠ 0%nat) then
      let idsParam := strings_Join ids "," in
      url.Add params "ids" idsParam
    else params in
  let params :=
    if bool_decide (perPage > 0) && bool_decide (perPage <= 250) then
      let params := url.Add params "per_page" (format_Int2String perPage) in
      url.Add params "page" (format_Int2String page)
    else params in
  let params := url.Add params "sparkline" (format_Bool2String sparkline) in
  let params :=
    if bool_decide (length priceChangePercentage ≠ 0%nat) then
      let priceChangePercentageParam := strings_Join priceChangePercentage "," in
      url.Add params "price_change_percentage" priceChangePercentageParam
    else params in
  params.

Definition CoinsMarket_url `{Packages} (c : Client) (vsCurrency : string)
    (ids : list string) (order : string) (perPage page : Z) (sparkline : bool)
    (priceChangePercentage : list string) : string :=
  url c +:+ "/coins/markets?" +:+
  url.Encode (CoinsMarket_params vsCurrency ids order perPage page sparkline
                priceChangePercentage).

Definition CoinsMarket `{Packages} (c : Client) (ctx : context_Context)
    (vsCurrency : string) (ids : list string) (order : string) (perPage page : Z)
    (sparkline : bool) (priceChangePercentage : list string)
  : Prog (option types_CoinsMarket * option error) :=
  if bool_decide (String.length vsCurrency = 0%nat) then
    Ret (None, Some (fmt_Errorf "vs_currency is required"))
  else
    r <- MakeReq c ctx (CoinsMarket_url c vsCurrency ids order perPage page sparkline
                          priceChangePercentage) ;;
    match r with
    | (_, Some err) => Ret (None, Some err)
    | (resp, None) =>
        let '(data, err) := json_Unmarshal resp (None : option types_CoinsMarket) in
        match err with
        | Some err => Ret (None, Some err)
        | None => Ret (data, None)
        end
    end.

(** *** CoinsID /coins/{id} *)

Definition CoinsID_params (localization tickers marketData communityData
    developerData sparkline : bool) : url.Values :=
  let params : url.Values := ∅ in
  let params := url.Add params "localization" (format_Bool2String sparkline) in
  let params := url.Add params "tickers" (format_Bool2String tickers) in
  let params := url.Add params "market_data" (format_Bool2String marketData) in
  let params := url.Add params "community_data" (format_Bool2String communityData) in
  let params := url.Add params "developer_data" (format_Bool2String developerData) in
  let params := url.Add params "sparkline" (format_Bool2String sparkline) in
  params.

Definition CoinsID_url `{Platform} (c : Client) (id : string) (localization tickers
    marketData communityData developerData sparkline : bool) : string :=
  url c +:+ "/coins/" +:+ id +:+ "?" +:+
  url.Encode (CoinsID_params localization tickers marketData communityData
                developerData sparkline).

Definition CoinsID `{Packages} (c : Client) (ctx : context_Context) (id : string)
    (localization tickers marketData communityData developerData sparkline : bool)
  : Prog (option types_CoinsID * option error) :=
  if bool_decide (String.length id = 0%nat) then
    Ret (None, Some (fmt_Errorf "id is required"))
  else
    r <- MakeReq c ctx (CoinsID_url c id localization tickers marketData
                          communityData developerData sparkline) ;;
    match r with
    | (_, Some err) => Ret (None, Some err)
    | (resp, None) =>
        let '(data, err) := json_Unmarshal resp (None : option types_CoinsID) in
        match err with
        | Some err => Ret (None, Some err)
        | None => Ret (data, None)
        end
    end.

(** *** CoinsIDTickers /coins/{id}/tickers *)

Definition CoinsIDTickers_url `{Packages} (c : Client) (id : string) (page : Z)
  : string :=
  let params : url.Values := ∅ in
  let params :=
    if bool_decide (page > 0) then url.Add params "page" (format_Int2String page)
    else params in
  url c +:+ "/coins/" +:+ id +:+ "/tickers?" +:+ url.Encode params.

Definition CoinsIDTickers `{Packages} (c : Client) (ctx : context_Context)
    (id : string) (page : Z)
  : Prog (option types_CoinsIDTickers * option error) :=
  if bool_decide (String.length id = 0%nat) then
    Ret (None, Some (fmt_Errorf "id is required"))
  else
    r <- MakeReq c ctx (CoinsIDTickers_url c id page) ;;
    match r with
    | (_, Some err) => Ret (None, Some err)
    | (resp, None) =>
        let '(data, err) := json_Unmarshal resp (None : option types_CoinsIDTickers) in
        match err with
        | Some err => Ret (None, Some err)
        | None => Ret (data, None)
        end
    end.

(** *** CoinsIDHistory /coins/{id}/history *)

Definition CoinsIDHistory_url `{Platform} (c : Client) (id date : string)
    (localization : bool) : string :=
  let params : url.Values := ∅ in
  let params := url.Add params "date" date in
  let params := url.Add params "localization" (format_Bool2String localization) in
  url c +:+ "/coins/" +:+ id +:+ "/history?" +:+ url.Encode params.

Definition CoinsIDHistory `{Packages} (c : Client) (ctx : context_Context)
    (id date : string) (localization : bool)
  : Prog (option types_CoinsIDHistory * option error) :=
  if bool_decide (String.length id = 0%nat) || bool_decide (String.length date = 0%nat)
  then
    Ret (None, Some (fmt_Errorf "id and date is required"))
  else
    r <- MakeReq c ctx (CoinsIDHistory_url c id date localization) ;;
    match r with
    | (_, Some err) => Ret (None, Some err)
    | (resp, None) =>
        let '(data, err) := json_Unmarshal resp (None : option types_CoinsIDHistory) in
        match err with
        | Some err => Ret (None, Some err)
        | None => Ret (data, None)
        end
    end.

(** *** CoinsIDMarketChart /coins/{id}/market_chart *)

Definition CoinsIDMarketChart_url `{Platform} (c : Client) (id vs_currency days : string)
  : string :=
  let params : url.Values := ∅ in
  let params := url.Add params "vs_currency" vs_currency in
  let params := url.Add params "days" days in
  url c +:+ "/coins/" +:+ id +:+ "/market_chart?" +:+ url.Encode params.

Definition CoinsIDMarketChart `{Packages} (c : Client) (ctx : context_Context)
    (id vs_currency days : string)
  : Prog (option types_CoinsIDMarketChart * option error) :=
  if bool_decide (String.length id = 0%nat)
     || bool_decide (String.length vs_currency = 0%nat)
     || bool_decide (String.length days = 0%nat)
  then
    Ret (None, Some (fmt_Errorf "id, vs_currency, and days is required"))
  else
    r <- MakeReq c ctx (CoinsIDMarketChart_url c id vs_currency days) ;;
    match r with
    | (_, Some err) => Ret (None, Some err)
    | (resp, None) =>
        let m := CoinsIDMarketChart_zero in
        let '(m, err) := json_Unmarshal resp m in
        match err with
        | Some err => Ret (Some m, Some err)
        | None => Ret (Some m, None)
        end
    end.

(** *** EventsCountries /events/countries *)

Definition EventsCountries_url `{Platform} (c : Client) : string :=
  url c +:+ "/events/countries".

Definition EventsCountries `{Packages} (c : Client) (ctx : context_Context)
  : Prog (option (list types_EventCountryItem) * option error) :=
  r <- MakeReq c ctx (EventsCountries_url c) ;;
  match r with
  | (_, Some err) => Ret (None, Some err)
  | (resp, None) =>
      let '(data, err) := json_Unmarshal resp (None : option types_EventsCountries) in
      match err with
      | Some err => Ret (None, Some err)
      | None =>
          match data with
          | None => Panic nil_dereference
          | Some data => Ret (EventsCountries_Data data, None)
          end
      end
  end.

(** *** EventsTypes /events/types *)

Definition EventsTypes_url `{Platform} (c : Client) : string :=
  url c +:+ "/events/types".

Definition EventsTypes `{Packages} (c : Client) (ctx : context_Context)
  : Prog (option types_EventsTypes * option error) :=
  r <- MakeReq c ctx (EventsTypes_url c) ;;
  match r with
  | (_, Some err) => Ret (None, Some err)
  | (resp, None) =>
      let '(data, err) := json_Unmarshal resp (None : option types_EventsTypes) in
      match err with
      | Some err => Ret (None, Some err)
      | None => Ret (data, None)
      end
  end.

(** *** ExchangeRates /exchange_rates *)

Definition ExchangeRates_url `{Platform} (c : Client) : string :=
  url c +:+ "/exchange_rates".

Definition ExchangeRates `{Packages} (c : Client) (ctx : context_Context)
  : Prog (option types_ExchangeRatesItem * option error) :=
  r <- MakeReq c ctx (ExchangeRates_url c) ;;
  match r with
  | (_, Some err) => Ret (None, Some err)
  | (resp, None) =>
      let '(data, err) :=
        json_Unmarshal resp (None : option types_ExchangeRatesResponse) in
      match err with
      | Some err => Ret (None, Some err)
      | None =>
          match data with
          | None => Panic nil_dereference
          | Some data => Ret (Some (ExchangeRatesResponse_Rates data), None)
          end
      end
  end.

(** *** AssetPlatforms /asset_platforms *)

Definition AssetPlatforms_url `{Platform} (c : Client) : string :=
  url c +:+ "/asset_platforms".

Definition AssetPlatforms `{Packages} (c : Client) (ctx : context_Context)
  : Prog (types_AssetPlatforms * option error) :=
  r <- MakeReq c ctx (AssetPlatforms_url c) ;;
  match r with
  | (_, Some err) => Ret (AssetPlatforms_nil, Some err)
  | (resp, None) =>
      let '(data, err) := json_Unmarshal resp AssetPlatforms_nil in
      match err with
      | Some err => Ret (AssetPlatforms_nil, Some err)
      | None => Ret (data, None)
      end
  end.

(** *** Global /global *)

Definition Global_url `{Platform} (c : Client) : string := url c +:+ "/global".

Definition Global `{Packages} (c : Client) (ctx : context_Context)
  : Prog (option types_Global * option error) :=
  r <- MakeReq c ctx (Global_url c) ;;
  match r with
  | (_, Some err) => Ret (None, Some err)
  | (resp, None) =>
      let '(data, err) := json_Unmarshal resp (None : option types_GlobalResponse) in
      match err with
      | Some err => Ret (None, Some err)
      | None =>
          match data with
          | None => Panic nil_dereference
          | Some data => Ret (Some (GlobalResponse_Data data), None)
          end
      end
  end.

(** ** Vocabulary of the properties *)

(** [MakeReq] on the URL [u] ends with the body [b] and no error: the
    transport answered 200 and the body could be read. *)
Definition delivers `{Platform} {W} (tr : Transport W) (w : W) (c : Client)
    (ctx : context_Context) (u : string) (b : list byte) : Prop :=
  outcome tr (MakeReq c ctx u) w = Returned (b, None).

(** [json.Unmarshal] of the body [b] into a target holding [init] fails
    with the error [e]. *)
Definition decode_fails `{Platform} {T} `{!Unmarshal T} (b : list byte) (init : T)
    (e : error) : Prop :=
  (json_Unmarshal b init).2 = Some e.

(** An error comes with a nil result. *)
Definition nil_on_error `{Platform} {A} (o : Outcome (option A * option error)) : Prop :=
  match o with
  | Returned (Some _, Some _) => False
  | _ => True
  end.

(** The call returns to its caller: it does not panic. *)
Definition returns `{Platform} {A} (o : Outcome A) : Prop :=
  match o with
  | Returned _ => True
  | Panicked _ => False
  end.

(** [MakeReq] on the URL [u] ends with the error [e]: the URL did not
    parse, the transport failed, the body could not be read or the status
    was not 200. *)
Definition fails_with `{Platform} {W} (tr : Transport W) (w : W) (c : Client)
    (ctx : context_Context) (u : string) (e : error) : Prop :=
  ∃ b, outcome tr (MakeReq c ctx u) w = Returned (b, Some e).

(** [json.Unmarshal] of the body [b] into a target holding [init] leaves
    [v] there and reports no error. *)
Definition decodes `{Platform} {T} `{!Unmarshal T} (b : list byte) (init v : T) : Prop :=
  json_Unmarshal b init = (v, None).

(** ** A test double

    A closed instance of [Platform] and [Packages], to run the operations
    on concrete inputs: a transport that answers from a table of routes, a
    [strings.ToLower] for ASCII text, and decoders that know a handful of
    bodies and report a syntax error on any other.  Prices are whole
    numbers here. *)

Module mock.

Definition lower_byte (c : ascii) : ascii :=
  if url.in_range "A" "Z" c then Ascii.ascii_of_N (Ascii.N_of_ascii c + 32) else c.

(** [strings.ToLower] on a string of ASCII bytes. *)
Fixpoint ToLower (s : string) : string :=
  match s with
  | EmptyString => EmptyString
  | String c s' => String (lower_byte c) (ToLower s')
  end.

Definition platform : Platform := {|
  context_Context := unit;
  http_Client := string;
  http_DefaultClient := "http.DefaultClient";
  lib_err := string;
  url_Parse_err := fun _ => None;
  strings_ToLower := ToLower;
  float32 := Z;
  float32_zero := 0
|}.

Definition syntax_error : @error platform :=
  lib_error (H := platform) "invalid character looking for beginning of value".

Definition type_error : @error platform :=
  lib_error (H := platform) "json: cannot unmarshal string into Go struct field".

(** A decoder for a pointer target: [null] leaves the pointer nil, [{}]
    allocates a zero value, any other body is taken for a syntax error and
    leaves the target as it was. *)
Definition decode_ptr {T : Type} (zero : T) : @Unmarshal platform (option T) :=
  fun data v =>
    let s := String.string_of_list_byte data in
    if bool_decide (s = "null") then (None, None)
    else if bool_decide (s = "{}") then (Some (default zero v), None)
    else (v, Some syntax_error).

(** The body [{"k":{"c":n}}]. *)
Definition price_body (k c n : string) : string :=
  "{" +:+ dq +:+ k +:+ dq +:+ ":{" +:+ dq +:+ c +:+ dq +:+ ":" +:+ n +:+ "}}".

(** The price tables this decoder knows. *)
Definition decode_prices : @Unmarshal platform (gmap string (gmap string Z)) :=
  fun data t =>
    let s := String.string_of_list_byte data in
    if bool_decide (s = "null") then (∅, None)
    else if bool_decide (s = "{}") then (t, None)
    else if bool_decide (s = price_body "bitcoin" "eur" "1") then
      (<["bitcoin" := {[ "eur" := 1 ]}]> t, None)
    else if bool_decide (s = price_body "bitcoin" "usd" "7") then
      (<["bitcoin" := {[ "usd" := 7 ]}]> t, None)
    else if bool_decide (s = price_body "BTC" "usd" "7") then
      (<["BTC" := {[ "usd" := 7 ]}]> t, None)
    else if bool_decide (s = price_body "btc" "usd" "7") then
      (<["btc" := {[ "usd" := 7 ]}]> t, None)
    else (t, Some syntax_error).

(** A market chart is represented by its [prices] field.  The body
    [{"prices":[[1,2]],"market_caps":"x"}] fills [prices] and then fails
    on the string. *)
Definition chart_body : string :=
  "{" +:+ dq +:+ "prices" +:+ dq +:+ ":[[1,2]]," +:+ dq +:+ "market_caps" +:+ dq +:+
  ":" +:+ dq +:+ "x" +:+ dq +:+ "}".

Definition decode_chart : @Unmarshal platform (list (Z * Z)) :=
  fun data m =>
    let s := String.string_of_list_byte data in
    if bool_decide (s = "{}") then (m, None)
    else if bool_decide (s = chart_body) then ([(1, 2)], Some type_error)
    else (m, Some syntax_error).

(** A decoder for a slice target. *)
Definition decode_slice {T : Type} : @Unmarshal platform (option (list T)) :=
  fun data v =>
    let s := String.string_of_list_byte data in
    if bool_decide (s = "null") then (None, None)
    else if bool_decide (s = "[]") then (Some [], None)
    else (v, Some syntax_error).

Definition packages : @Packages platform := {|
  format_Int2String := pretty;
  types_MarketCapDesc := "market_cap_desc";
  types_Ping := string;
  types_SimpleSupportedVSCurrencies := list string;
  types_CoinList := list string;
  types_CoinsMarket := list string;
  types_CoinsID := string;
  types_CoinsIDTickers := string;
  types_CoinsIDHistory := string;
  types_CoinsIDMarketChart := list (Z * Z);
  CoinsIDMarketChart_zero := [];
  types_EventCountryItem := string;
  types_EventsCountries := option (list string);
  EventsCountries_Data := fun d => d;
  types_EventsTypes := string;
  types_ExchangeRatesItem := gmap string Z;
  types_ExchangeRatesResponse := gmap string Z;
  ExchangeRatesResponse_Rates := fun d => d;
  types_AssetPlatforms := option (list string);
  AssetPlatforms_nil := None;
  types_Global := string;
  types_GlobalResponse := string;
  GlobalResponse_Data := fun d => d;
  Unmarshal_Ping := decode_ptr "";
  Unmarshal_prices := decode_prices;
  Unmarshal_SimpleSupportedVSCurrencies := decode_ptr [];
  Unmarshal_CoinList := decode_ptr [];
  Unmarshal_CoinsMarket := decode_ptr [];
  Unmarshal_CoinsID := decode_ptr "";
  Unmarshal_CoinsIDTickers := decode_ptr "";
  Unmarshal_CoinsIDHistory := decode_ptr "";
  Unmarshal_CoinsIDMarketChart := decode_chart;
  Unmarshal_EventsCountries := decode_ptr None;
  Unmarshal_EventsTypes := decode_ptr "";
  Unmarshal_ExchangeRatesResponse := decode_ptr ∅;
  Unmarshal_AssetPlatforms := decode_slice;
  Unmarshal_GlobalResponse := decode_ptr ""
|}.

(** The answer with status [status] and body [body]. *)
Definition answer (status : Z) (body : string) : @Response platform + @error platform :=
  inl (mkResponse (H := platform) status
         (mkBody (H := platform) (String.list_byte_of_string body) None)).

(** A transport that answers by the request's URL and counts its calls;
    an unknown URL gets a 404 with an empty body. *)
Definition routes (table : list (string * (Z * string))) : @Transport platform nat :=
  fun _ req n =>
    match list_find (fun r => r.1 = @URL platform req) table with
    | Some (_, (_, (status, body))) => (answer status body, S n)
    | None => (answer 404 "", S n)
    end.

(** A transport that gives every request the same answer. *)
Definition always (status : Z) (body : string) : @Transport platform nat :=
  fun _ _ n => (answer status body, S n).

Definition client : @Client platform :=
  @NewClient platform None "".

(** A price server that answers four queries: for [bitcoin] in [usd] a
    row that holds [eur] only, for [BTC] and for [btc] a row under the id
    as it was asked, for [ethereum] no row. *)
Definition price_server : @Transport platform nat :=
  routes
    [(baseURL +:+ "/simple/price?ids=bitcoin&vs_currencies=usd",
      (200, price_body "bitcoin" "eur" "1"));
     (baseURL +:+ "/simple/price?ids=BTC&vs_currencies=usd",
      (200, price_body "BTC" "usd" "7"));
     (baseURL +:+ "/simple/price?ids=btc&vs_currencies=usd",
      (200, price_body "btc" "usd" "7"));
     (baseURL +:+ "/simple/price?ids=ethereum&vs_currencies=usd",
      (200, "{}"));
     (baseURL +:+ "/simple/price?ids=bitcoin&vs_currencies=eur",
      (200, price_body "bitcoin" "eur" "1"))].

Definition request : @Request platform :=
  mkRequest (H := platform) () "GET" "https://api.coingecko.com/api/v3/ping" ∅.

(** A transport whose [Do] fails. *)
Definition broken (e : string) : @Transport platform nat :=
  fun _ _ n => (inr (lib_error (H := platform) e), S n).

(** A transport that answers with a body that cannot be read. *)
Definition unreadable (status : Z) (e : string) : @Transport platform nat :=
  fun _ _ n =>
    (inl (mkResponse (H := platform) status
            (mkBody (H := platform) [] (Some (lib_error (H := platform) e)))),
     S n).

(** A transport whose answer breaks off after the bytes [partial]. *)
Definition truncated (status : Z) (partial e : string) : @Transport platform nat :=
  fun _ _ n =>
    (inl (mkResponse (H := platform) status
            (mkBody (H := platform) (String.list_byte_of_string partial)
               (Some (lib_error (H := platform) e)))),
     S n).

End mock.

(** * Part II: properties *)

(** ** Running a program *)

Section Run.
Context `{Platform}.

Lemma run_bind {A B W} (tr : Transport W) (m : Prog A) (f : A -> Prog B) (w : W) :
  run tr (bind m f) w =
  match run tr m w with
  | (Returned a, log, w1) =>
      let '(o, log', w2) := run tr (f a) w1 in (o, (log ++ log')%list, w2)
  | (Panicked msg, log, w1) => (Panicked msg, log, w1)
  end.
Proof.
  revert w. induction m as [a|msg|client req k IH]; intros w; simpl.
  - by destruct (run tr (f a) w) as [[o log] w2].
  - done.
  - destruct (tr client req w) as [r w1]. rewrite IH.
    destruct (run tr (k r) w1) as [[[a|msg] log] w2]; [|done].
    by destruct (run tr (f a) w2) as [[o log'] w3].
Qed.

Lemma outcome_bind {A B W} (tr : Transport W) (m : Prog A) (f : A -> Prog B) (w : W) :
  outcome tr (bind m f) w =
  match run tr m w with
  | (Returned a, _, w1) => outcome tr (f a) w1
  | (Panicked msg, _, _) => Panicked msg
  end.
Proof.
  unfold outcome. rewrite run_bind.
  destruct (run tr m w) as [[[a|msg] log] w1]; [|done].
  by destruct (run tr (f a) w1) as [[o log'] w2].
Qed.

Lemma requests_bind {A B W} (tr : Transport W) (m : Prog A) (f : A -> Prog B) (w : W) :
  requests tr (bind m f) w =
  match run tr m w with
  | (Returned a, log, w1) => (log ++ requests tr (f a) w1)%list
  | (Panicked msg, log, _) => log
  end.
Proof.
  unfold requests. rewrite run_bind.
  destruct (run tr m w) as [[[a|msg] log] w1]; [|done].
  by destruct (run tr (f a) w1) as [[o log'] w2].
Qed.

(** [doReq] calls the transport once, with the request it was given. *)
Lemma requests_doReq {W} (tr : Transport W) req client (w : W) :
  requests tr (doReq req client) w = [req].
Proof.
  unfold requests, doReq. simpl. destruct (tr client req w) as [[resp|err] w1]; [|done].
  destruct (rc_err (Body resp)); [done|].
  by repeat case_bool_decide.
Qed.

(** [doReq] always returns: it has no panic of its own. *)
Lemma doReq_returns {W} (tr : Transport W) req client (w : W) :
  ∃ r, outcome tr (doReq req client) w = Returned r.
Proof.
  unfold outcome, doReq. simpl. destruct (tr client req w) as [[resp|err] w1]; [|by eexists].
  destruct (rc_err (Body resp)); [by eexists|].
  repeat case_bool_decide; by eexists.
Qed.

(** The request [MakeReq] hands to the transport. *)
Lemma requests_MakeReq {W} (tr : Transport W) c ctx u (w : W) :
  requests tr (MakeReq c ctx u) w =
  match url_Parse_err u with
  | Some _ => []
  | None =>
      [mkRequest ctx "GET" u
         (if bool_decide (apiKey c ≠ "") then {[ "X-Cg-Pro-Api-Key" := [apiKey c] ]}
          else ∅)]
  end.
Proof.
  unfold MakeReq, http_NewRequestWithContext.
  destruct (url_Parse_err u); [done|].
  rewrite requests_bind.
  match goal with |- context [doReq ?r ?cl] =>
    pose proof (requests_doReq tr r cl w) as Hreq;
    destruct (run tr (doReq r cl) w) as [[[[b [e|]]|msg] log] w1] eqn:Hrun
  end; unfold requests in Hreq; rewrite Hrun in Hreq; simpl in *; subst log;
    by case_bool_decide.
Qed.

End Run.

(** ** The status check of [doReq] *)

(** C3, as amended: when the transport delivers a response whose body can
    be read, [doReq] returns the raw body bytes without error if and only
    if the status code is exactly 200; any other status, the other 2xx
    codes included, yields an error built by [fmt.Errorf] and no bytes. *)
Theorem doReq_success_iff_200 `{Platform} {W} (tr : Transport W) req client
    (w w1 : W) (resp : Response) :
  tr client req w = (inl resp, w1) ->
  rc_err (Body resp) = None ->
  (outcome tr (doReq req client) w = Returned (rc_data (Body resp), None)
   <-> StatusCode resp = 200)
  /\ (StatusCode resp ≠ 200 ->
      ∃ msg, outcome tr (doReq req client) w = Returned ([], Some (fmt_Errorf msg))).
Proof.
  intros Htr Hbody. unfold outcome, doReq, ioutil_ReadAll. simpl.
  rewrite Htr, Hbody. simpl.
  case_bool_decide as Hst; [case_bool_decide|]; simpl.
  - split; [split; [intros [=]|done]|by eexists].
  - split; [split; [intros [=]|done]|by eexists].
  - split; [done|]. intros Hne. by destruct Hne.
Qed.

Lemma length_append (s t : string) :
  String.length (s +:+ t) = (String.length s + String.length t)%nat.
Proof. induction s as [|c s IH]; simpl; [done|]. by rewrite IH. Qed.

Lemma append_assoc (a b c : string) : (a +:+ b) +:+ c = a +:+ b +:+ c.
Proof.
  induction a as [|x a IH]; [done|].
  change (String x ((a +:+ b) +:+ c) = String x (a +:+ b +:+ c)). by f_equal.
Qed.

Lemma append_cancel_r (s1 s2 t : string) : s1 +:+ t = s2 +:+ t -> s1 = s2.
Proof.
  intros Heq.
  assert (Hlen : String.length s1 = String.length s2).
  { apply (f_equal String.length) in Heq. rewrite !length_append in Heq. lia. }
  revert s2 Heq Hlen. induction s1 as [|c s1 IH]; intros [|c' s2] Heq Hlen; try done.
  simpl in *. injection Heq as -> Heq. f_equal. apply IH; [done|lia].
Qed.

(** C4, as amended: for a response whose status is not 200 and whose body
    can be read, the error's message is the raw body when the body is not
    empty, and otherwise the text [{"status": {"error_code": N}}] with [N]
    the status code in decimal; that text determines the status code.  The
    text is written out here byte by byte ([quote] is the byte 34, [pretty]
    is the decimal numeral). *)
Theorem doReq_error_message `{Platform} {W} (tr : Transport W) req client
    (w w1 : W) (resp : Response) :
  let quote := String (Ascii.ascii_of_nat 34) "" in
  let synthesized (code : Z) :=
    "{" +:+ quote +:+ "status" +:+ quote +:+ ": {" +:+ quote +:+ "error_code" +:+
    quote +:+ ": " +:+ pretty code +:+ "}}" in
  tr client req w = (inl resp, w1) ->
  rc_err (Body resp) = None ->
  StatusCode resp ≠ 200 ->
  outcome tr (doReq req client) w =
    Returned ([], Some (fmt_Errorf
      (if bool_decide (rc_data (Body resp) = [])
       then synthesized (StatusCode resp)
       else String.string_of_list_byte (rc_data (Body resp)))))
  /\ (∀ code, synthesized code = synthesized (StatusCode resp) ->
              code = StatusCode resp).
Proof.
  intros quote synthesized Htr Hbody Hst. split.
  - unfold outcome, doReq, ioutil_ReadAll. simpl.
    rewrite Htr, Hbody. simpl.
    rewrite bool_decide_true by done.
    by destruct (rc_data (Body resp)) as [|b bs].
  - intros code Heq. unfold synthesized in Heq.
    repeat apply (inj (String.app _)) in Heq.
    apply append_cancel_r in Heq. by apply (inj pretty) in Heq.
Qed.

(** ** Query strings: what [Encode] writes is what the server splits *)

Section Query.
Import url.

Lemma occurs_app c a b : occurs c (a +:+ b) = occurs c a || occurs c b.
Proof. induction a as [|x a IH]; simpl; [done|]. by rewrite IH, orb_assoc. Qed.

Lemma segments_free sep a : occurs sep a = false -> segments sep a = [a].
Proof.
  induction a as [|x a IH]; simpl; [done|]. intros [Hx Ha]%orb_false_elim.
  rewrite Hx, IH; done.
Qed.

Lemma segments_app sep a b :
  occurs sep a = false -> segments sep (a +:+ String sep b) = a :: segments sep b.
Proof.
  induction a as [|x a IH]; simpl.
  - by rewrite Ascii.eqb_refl.
  - intros [Hx Ha]%orb_false_elim. rewrite Hx, IH; done.
Qed.

Lemma segments_concat sep x l :
  Forall (fun a => occurs sep a = false) (x :: l) ->
  segments sep (String.concat (String sep "") (x :: l)) = x :: l.
Proof.
  revert x. induction l as [|y l IH]; intros x Hall.
  - apply segments_free. by inversion Hall.
  - inversion_clear Hall as [|? ? Hx Hl]. cbn [String.concat].
    change (x ++ String sep "" ++ ?r) with (x +:+ String sep r).
    rewrite segments_app by done. f_equal. by apply IH.
Qed.

Lemma Cut_app sep a b : occurs sep a = false -> Cut sep (a +:+ String sep b) = (a, b).
Proof.
  induction a as [|x a IH]; simpl.
  - by rewrite Ascii.eqb_refl.
  - intros [Hx Ha]%orb_false_elim. rewrite Hx, IH; done.
Qed.

Lemma QueryEscape_cons c s :
  QueryEscape (String c s) = QueryEscape (String c "") +:+ QueryEscape s.
Proof. simpl. destruct (shouldEscape c); [destruct (Ascii.eqb c " ")|]; done. Qed.

(** No byte is escaped to text that holds [&] or [=]. *)
Lemma escape_byte_clean c :
  occurs "&" (QueryEscape (String c "")) = false
  /\ occurs "=" (QueryEscape (String c "")) = false.
Proof. destruct c as [[] [] [] [] [] [] [] []]; by vm_compute. Qed.

Lemma QueryEscape_clean s :
  occurs "&" (QueryEscape s) = false /\ occurs "=" (QueryEscape s) = false.
Proof.
  induction s as [|c s [IH1 IH2]]; [done|].
  rewrite QueryEscape_cons, !occurs_app, IH1, IH2.
  by destruct (escape_byte_clean c) as [-> ->].
Qed.

Lemma Encode_fields_escaped v : Forall escaped (Encode_fields v).
Proof.
  unfold Encode_fields. apply Forall_forall. intros f Hf.
  apply list_elem_of_bind in Hf as (k & Hf & _).
  apply list_elem_of_fmap in Hf as (x & -> & _). by exists k, x.
Qed.

Lemma Cut_pairs fs :
  Forall escaped fs ->
  Cut "=" <$> filter (fun seg => seg ≠ "") ((fun f => f.1 +:+ "=" +:+ f.2) <$> fs) = fs.
Proof.
  induction 1 as [|g gs (k & x & ->) _ IH]; [done|].
  rewrite fmap_cons, filter_cons_True by (simpl; by destruct (QueryEscape k)).
  rewrite fmap_cons, IH. f_equal. simpl.
  apply Cut_app, QueryEscape_clean.
Qed.

Lemma pairs_clean fs :
  Forall escaped fs ->
  Forall (fun a => occurs "&" a = false) ((fun f => f.1 +:+ "=" +:+ f.2) <$> fs).
Proof.
  intros Hall. apply Forall_fmap. eapply Forall_impl; [exact Hall|].
  intros g (k & x & ->). simpl.
  change (QueryEscape k +:+ "=" +:+ QueryEscape x)
    with (QueryEscape k +:+ String "=" (QueryEscape x)).
  rewrite occurs_app. simpl.
  destruct (QueryEscape_clean k) as [-> _]. by destruct (QueryEscape_clean x) as [-> _].
Qed.

(** Splitting the encoded query at [&] and [=] gives back the escaped
    pairs, one field per pair and in the same order. *)
Lemma query_fields_Encode v : query_fields (Encode v) = Encode_fields v.
Proof.
  unfold query_fields, Encode.
  pose proof (Encode_fields_escaped v) as Hall.
  destruct (Encode_fields v) as [|f fs] eqn:Hfs; [by vm_compute|].
  rewrite fmap_cons, segments_concat.
  - exact (Cut_pairs (f :: fs) Hall).
  - exact (pairs_clean (f :: fs) Hall).
Qed.

End Query.

(** ** Operations: the requests they send and how they end *)

Ltac pure_cases :=
  repeat match goal with
  | |- ∀ _, _ => intros
  | r : (_ * _)%type |- _ => destruct r
  | e : option _ |- _ => destruct e
  | |- context [json_Unmarshal ?b ?v] => destruct (json_Unmarshal b v)
  | |- context [bool_decide ?P] => destruct (bool_decide P)
  | |- pure _ => exact I
  | _ => progress simpl
  end.

Ltac find_field :=
  solve [repeat first [apply list_elem_of_here | apply list_elem_of_further]].

Section Operations.
Context `{Packages} {W : Type} (tr : Transport W).

Lemma requests_pure {A} (p : Prog A) (w : W) : pure p -> requests tr p w = [].
Proof. by destruct p. Qed.

Lemma requests_bind_pure {A B} (m : Prog A) (f : A -> Prog B) (w : W) :
  (∀ a, pure (f a)) -> requests tr (bind m f) w = requests tr m w.
Proof.
  intros Hf. rewrite requests_bind. unfold requests at 2.
  destruct (run tr m w) as [[[a|msg] log] w1]; simpl; [|done].
  by rewrite requests_pure, app_nil_r.
Qed.

Lemma URL_requests_MakeReq c ctx u (w : W) :
  URL <$> requests tr (MakeReq c ctx u) w =
  match url_Parse_err u with Some _ => [] | None => [u] end.
Proof. rewrite requests_MakeReq. by destruct (url_Parse_err u). Qed.

Lemma outcome_bind_returned {A B} (m : Prog A) (f : A -> Prog B) w a :
  outcome tr m w = Returned a -> ∃ w1, outcome tr (bind m f) w = outcome tr (f a) w1.
Proof.
  intros Hm. rewrite outcome_bind. unfold outcome in Hm.
  destruct (run tr m w) as [[o log] w1]. simpl in Hm. subst o. by exists w1.
Qed.

Lemma requests_SimplePrice c ctx ids vs w :
  requests tr (SimplePrice c ctx ids vs) w =
  requests tr (MakeReq c ctx (SimplePrice_url c ids vs)) w.
Proof. unfold SimplePrice. apply requests_bind_pure. pure_cases. Qed.

Lemma requests_SimpleSinglePrice c ctx id cur w :
  requests tr (SimpleSinglePrice c ctx id cur) w =
  requests tr (SimplePrice c ctx [strings_ToLower id] [strings_ToLower cur]) w.
Proof. unfold SimpleSinglePrice. apply requests_bind_pure. pure_cases. Qed.

Lemma requests_CoinsMarket c ctx vs ids order perPage page sparkline pcp w :
  requests tr (CoinsMarket c ctx vs ids order perPage page sparkline pcp) w =
  if bool_decide (vs = "") then []
  else requests tr
         (MakeReq c ctx (CoinsMarket_url c vs ids order perPage page sparkline pcp)) w.
Proof.
  unfold CoinsMarket. destruct vs; [done|]. simpl.
  rewrite ?bool_decide_false by done. apply requests_bind_pure. pure_cases.
Qed.

Lemma requests_CoinsID c ctx id l t m cd dd s w :
  requests tr (CoinsID c ctx id l t m cd dd s) w =
  if bool_decide (id = "") then []
  else requests tr (MakeReq c ctx (CoinsID_url c id l t m cd dd s)) w.
Proof.
  unfold CoinsID. destruct id; [done|]. simpl.
  rewrite ?bool_decide_false by done. apply requests_bind_pure. pure_cases.
Qed.

Lemma SimplePrice_fields a b :
  url.Encode_fields (url.Add (url.Add ∅ "ids" a) "vs_currencies" b) =
  [url.field "ids" a; url.field "vs_currencies" b].
Proof.
  unfold url.Encode_fields, url.field. generalize url.QueryEscape. intros esc.
  by vm_compute.
Qed.

Lemma SimplePrice_url_eq c ids vs :
  SimplePrice_url c ids vs =
  url c +:+ "/simple/price?ids=" +:+ url.QueryEscape (strings_Join ids ",") +:+
  "&vs_currencies=" +:+ url.QueryEscape (strings_Join vs ",").
Proof.
  unfold SimplePrice_url, url.Encode. rewrite SimplePrice_fields. unfold url.field.
  generalize (url.QueryEscape (strings_Join ids ","))
    (url.QueryEscape (strings_Join vs ",")).
  intros a b. by vm_compute.
Qed.

Lemma CoinsMarket_fields vs ids order perPage page sparkline pcp :
  url.Encode_fields (CoinsMarket_params vs ids order perPage page sparkline pcp) =
  ((if bool_decide (length ids ≠ 0%nat)
    then [url.field "ids" (strings_Join ids ",")] else []) ++
   [url.field "order" (if bool_decide (String.length order = 0%nat)
                       then types_MarketCapDesc else order)] ++
   (if bool_decide (perPage > 0) && bool_decide (perPage <= 250)
    then [url.field "page" (format_Int2String page);
          url.field "per_page" (format_Int2String perPage)] else []) ++
   (if bool_decide (length pcp ≠ 0%nat)
    then [url.field "price_change_percentage" (strings_Join pcp ",")] else []) ++
   [url.field "sparkline" (format_Bool2String sparkline);
    url.field "vs_currency" vs])%list.
Proof.
  unfold CoinsMarket_params, url.Encode_fields, url.field.
  generalize (strings_Join ids ",") (strings_Join pcp ",")
    (format_Int2String page) (format_Int2String perPage)
    (if bool_decide (String.length order = 0%nat) then types_MarketCapDesc else order)
    (format_Bool2String sparkline) url.QueryEscape.
  intros a b c' d e f esc.
  destruct (bool_decide (length ids ≠ 0%nat)),
    (bool_decide (perPage > 0) && bool_decide (perPage <= 250)),
    (bool_decide (length pcp ≠ 0%nat)); by vm_compute.
Qed.

End Operations.

(** ** The client's constructors *)

(** C8: [NewClient] takes the pro host exactly when the key is not empty
    and the public host otherwise; [NewClientWithURL] keeps the URL and the
    key it is given, keeps a transport that is not nil and puts
    [http.DefaultClient] in the place of a nil one. *)
Theorem NewClient_base_host `{Platform} (transport : option http_Client)
    (key : string) :
  (url (NewClient transport key) = proURL <-> key ≠ "")
  /\ (url (NewClient transport key) = baseURL <-> key = "")
  /\ proURL = "https://pro-api.coingecko.com/api/v3"
  /\ baseURL = "https://api.coingecko.com/api/v3"
  /\ (∀ u, url (NewClientWithURL transport u key) = u)
  /\ (∀ u, apiKey (NewClientWithURL transport u key) = key)
  /\ (∀ u, httpClient (NewClientWithURL None u key) = http_DefaultClient)
  /\ (∀ u cl, httpClient (NewClientWithURL (Some cl) u key) = cl)
  /\ NewClient transport key =
     NewClientWithURL transport (url (NewClient transport key)) key.
Proof.
  unfold NewClient, NewClientWithURL. simpl.
  repeat split; try done; case_bool_decide; naive_solver.
Qed.

(** ** The query of the coin-detail request *)


(** ** Properties of the operations *)

Ltac after_request Hm :=
  let w1 := fresh "w1" in let Ho := fresh "Ho" in
  match goal with
  | |- outcome _ (bind ?m ?f) _ = _ =>
      destruct (outcome_bind_returned _ m f _ _ Hm) as [w1 Ho]; rewrite Ho; clear Ho
  end.

Section Behaviour.
Context `{Packages} {W : Type} (tr : Transport W).

(** C1, as amended: for an id and a currency that [strings.ToLower] leaves
    as they are, [SimpleSinglePrice] returns the value of the (id, currency)
    cell of [SimplePrice(ctx, [id], [currency])] as its [MarketPrice] when
    that cell is present, fails with the error "id or vsCurrency not
    existed" when the id's row is absent or empty, and returns the error of
    [SimplePrice] when it has one. *)
Theorem SimpleSinglePrice_cell c ctx id cur w :
  strings_ToLower id = id ->
  strings_ToLower cur = cur ->
  (∀ t p,
     outcome tr (SimplePrice c ctx [id] [cur]) w = Returned (Some t, None) ->
     cell t id cur = Some p ->
     outcome tr (SimpleSinglePrice c ctx id cur) w =
     Returned (Some (mkSimpleSinglePrice id cur p), None))
  /\ (∀ t,
     outcome tr (SimplePrice c ctx [id] [cur]) w = Returned (Some t, None) ->
     t !! id = None \/ t !! id = Some ∅ ->
     outcome tr (SimpleSinglePrice c ctx id cur) w =
     Returned (None, Some (fmt_Errorf "id or vsCurrency not existed")))
  /\ (∀ r err,
     outcome tr (SimplePrice c ctx [id] [cur]) w = Returned (r, Some err) ->
     outcome tr (SimpleSinglePrice c ctx id cur) w = Returned (None, Some err)).
Proof.
  intros Hid Hcur. unfold SimpleSinglePrice. rewrite Hid, Hcur.
  split; [|split].
  - intros t p Hsp Hcell. after_request Hsp. unfold cell in Hcell.
    destruct (t !! id) as [row|] eqn:Hrow; [|done]. simpl in *.
    rewrite bool_decide_false.
    + by rewrite Hcell.
    + intros Hsize%map_size_empty_iff. by rewrite Hsize in Hcell.
  - intros t Hsp Hrow. after_request Hsp.
    by destruct Hrow as [-> | ->].
  - intros r err Hsp. after_request Hsp. by destruct r.
Qed.

(** C7: whatever the id and the currency, the only request
    [SimpleSinglePrice] sends is a GET of [/simple/price] whose query has
    the two fields [ids] and [vs_currencies], holding the lower-cased id
    and the lower-cased currency (escaped for a query). *)
Theorem SimpleSinglePrice_lower_cases c ctx id cur w :
  let q := "ids=" +:+ url.QueryEscape (strings_ToLower id) +:+
           "&vs_currencies=" +:+ url.QueryEscape (strings_ToLower cur) in
  URL <$> requests tr (SimpleSinglePrice c ctx id cur) w =
    match url_Parse_err (url c +:+ "/simple/price?" +:+ q) with
    | Some _ => []
    | None => [url c +:+ "/simple/price?" +:+ q]
    end
  /\ url.query_fields q =
     [("ids", url.QueryEscape (strings_ToLower id));
      ("vs_currencies", url.QueryEscape (strings_ToLower cur))].
Proof.
  intros q. split.
  - rewrite requests_SimpleSinglePrice, requests_SimplePrice, URL_requests_MakeReq.
    by rewrite SimplePrice_url_eq.
  - transitivity (url.query_fields (url.Encode
      (url.Add (url.Add ∅ "ids" (strings_ToLower id)) "vs_currencies"
         (strings_ToLower cur)))).
    + reflexivity.
    + by rewrite query_fields_Encode, SimplePrice_fields.
Qed.

(** C5: the request [CoinsMarket] sends carries the query [q] that
    [params.Encode()] returns.  [q] has neither a [per_page] nor a [page]
    field when [perPage <= 0] or [perPage > 250]; it has both, with the two
    arguments as their values, when [0 < perPage <= 250]; and its [order]
    field holds [types.OrderTypeObject.MarketCapDesc] when the [order]
    argument is empty. *)
Theorem CoinsMarket_paging c ctx w vs ids order perPage page sparkline pcp :
  let q := url.Encode (CoinsMarket_params vs ids order perPage page sparkline pcp) in
  URL <$> requests tr (CoinsMarket c ctx vs ids order perPage page sparkline pcp) w =
    (if bool_decide (vs = "") then []
     else match url_Parse_err (url c +:+ "/coins/markets?" +:+ q) with
          | Some _ => []
          | None => [url c +:+ "/coins/markets?" +:+ q]
          end)
  /\ ((perPage <= 0 \/ perPage > 250) ->
      ("per_page" ∉ url.query_keys q) /\ ("page" ∉ url.query_keys q))
  /\ ((0 < perPage <= 250) ->
      ("per_page", url.QueryEscape (format_Int2String perPage)) ∈ url.query_fields q
      /\ ("page", url.QueryEscape (format_Int2String page)) ∈ url.query_fields q)
  /\ (order = "" ->
      ("order", url.QueryEscape types_MarketCapDesc) ∈ url.query_fields q).
Proof.
  intros q. split.
  { rewrite requests_CoinsMarket. case_bool_decide; [done|].
    by rewrite URL_requests_MakeReq. }
  unfold url.query_keys. unfold q.
  rewrite query_fields_Encode, CoinsMarket_fields. unfold url.field.
  change (url.QueryEscape "ids") with "ids".
  change (url.QueryEscape "order") with "order".
  change (url.QueryEscape "page") with "page".
  change (url.QueryEscape "per_page") with "per_page".
  change (url.QueryEscape "price_change_percentage") with "price_change_percentage".
  change (url.QueryEscape "sparkline") with "sparkline".
  change (url.QueryEscape "vs_currency") with "vs_currency".
  split; [|split].
  - intros Hout.
    rewrite (bool_decide_ext (perPage > 0) (0 < perPage)) by lia.
    assert (bool_decide (0 < perPage) && bool_decide (perPage <= 250) = false) as ->.
    { apply andb_false_iff. rewrite !bool_decide_eq_false. lia. }
    repeat case_bool_decide; simpl; split; apply (bool_decide_unpack _); by vm_compute.
  - intros Hin.
    rewrite (bool_decide_true (perPage > 0)), (bool_decide_true (perPage <= 250))
      by lia.
    simpl. repeat case_bool_decide; simpl; split; find_field.
  - intros ->. simpl. repeat case_bool_decide; simpl; find_field.
Qed.

(** C6: with a required argument empty, the five operations that check
    their arguments return their validation error with a nil result, hand
    no request to the transport and leave it as it was. *)
Theorem validation_precedes_request c ctx w :
  (∀ ids order perPage page sparkline pcp,
     run tr (CoinsMarket c ctx "" ids order perPage page sparkline pcp) w =
     (Returned (None, Some (fmt_Errorf "vs_currency is required")), [], w))
  /\ (∀ l t m cd dd s,
     run tr (CoinsID c ctx "" l t m cd dd s) w =
     (Returned (None, Some (fmt_Errorf "id is required")), [], w))
  /\ (∀ page,
     run tr (CoinsIDTickers c ctx "" page) w =
     (Returned (None, Some (fmt_Errorf "id is required")), [], w))
  /\ (∀ id date localization,
     id = "" \/ date = "" ->
     run tr (CoinsIDHistory c ctx id date localization) w =
     (Returned (None, Some (fmt_Errorf "id and date is required")), [], w))
  /\ (∀ id vs_currency days,
     id = "" \/ vs_currency = "" \/ days = "" ->
     run tr (CoinsIDMarketChart c ctx id vs_currency days) w =
     (Returned (None, Some (fmt_Errorf "id, vs_currency, and days is required")),
      [], w)).
Proof.
  repeat split; try done.
  - intros id date localization Hempty. unfold CoinsIDHistory.
    assert (bool_decide (String.length id = 0%nat)
            || bool_decide (String.length date = 0%nat) = true) as ->; [|done].
    destruct Hempty as [-> | ->]; [done|]. apply orb_true_r.
  - intros id vs days Hempty. unfold CoinsIDMarketChart.
    assert (bool_decide (String.length id = 0%nat)
            || bool_decide (String.length vs = 0%nat)
            || bool_decide (String.length days = 0%nat) = true) as ->; [|done].
    destruct Hempty as [-> | [-> | ->]]; [done| |].
    + by rewrite orb_true_r.
    + by rewrite orb_true_r.
Qed.

Lemma SimplePrice_decode_failure c ctx ids vs w b e :
  outcome tr (MakeReq c ctx (SimplePrice_url c ids vs)) w = Returned (b, None) ->
  (json_Unmarshal b (∅ : gmap string (gmap string float32))).2 = Some e ->
  outcome tr (SimplePrice c ctx ids vs) w = Returned (None, Some e).
Proof.
  intros Hm Hd. unfold SimplePrice. after_request Hm. revert Hd.
  destruct (json_Unmarshal _ _) as [v err]; simpl; by intros ->.
Qed.

Lemma SimpleSinglePrice_decode_failure c ctx id cur w b e :
  outcome tr (MakeReq c ctx
                (SimplePrice_url c [strings_ToLower id] [strings_ToLower cur])) w
    = Returned (b, None) ->
  (json_Unmarshal b (∅ : gmap string (gmap string float32))).2 = Some e ->
  outcome tr (SimpleSinglePrice c ctx id cur) w = Returned (None, Some e).
Proof.
  intros Hm Hd. unfold SimpleSinglePrice.
  pose proof (SimplePrice_decode_failure _ _ _ _ _ _ _ Hm Hd) as Hsp.
  by after_request Hsp.
Qed.

(** C9: when the body [MakeReq] delivered fails to decode,
    [CoinsIDMarketChart] returns a non-nil pointer to the structure as
    [json.Unmarshal] left it, together with the decode error; every other
    operation returns a nil result with the decode error. *)
Theorem decode_failure_results c ctx w b e :
  (∀ id vs_currency days,
     id ≠ "" -> vs_currency ≠ "" -> days ≠ "" ->
     delivers tr w c ctx (CoinsIDMarketChart_url c id vs_currency days) b ->
     decode_fails b CoinsIDMarketChart_zero e ->
     outcome tr (CoinsIDMarketChart c ctx id vs_currency days) w =
     Returned (Some (json_Unmarshal b CoinsIDMarketChart_zero).1, Some e))
  /\ (delivers tr w c ctx (Ping_url c) b ->
      decode_fails b (None : option types_Ping) e ->
      outcome tr (Ping c ctx) w = Returned (None, Some e))
  /\ (∀ ids vsCurrencies,
      delivers tr w c ctx (SimplePrice_url c ids vsCurrencies) b ->
      decode_fails b (∅ : gmap string (gmap string float32)) e ->
      outcome tr (SimplePrice c ctx ids vsCurrencies) w = Returned (None, Some e))
  /\ (∀ id vsCurrency,
      delivers tr w c ctx
        (SimplePrice_url c [strings_ToLower id] [strings_ToLower vsCurrency]) b ->
      decode_fails b (∅ : gmap string (gmap string float32)) e ->
      outcome tr (SimpleSinglePrice c ctx id vsCurrency) w = Returned (None, Some e))
  /\ (delivers tr w c ctx (SimpleSupportedVSCurrencies_url c) b ->
      decode_fails b (None : option types_SimpleSupportedVSCurrencies) e ->
      outcome tr (SimpleSupportedVSCurrencies c ctx) w = Returned (None, Some e))
  /\ (∀ includePlatform,
      delivers tr w c ctx (CoinsList_url c includePlatform) b ->
      decode_fails b (None : option types_CoinList) e ->
      outcome tr (CoinsList c ctx includePlatform) w = Returned (None, Some e))
  /\ (∀ vsCurrency ids order perPage page sparkline pcp,
      vsCurrency ≠ "" ->
      delivers tr w c ctx
        (CoinsMarket_url c vsCurrency ids order perPage page sparkline pcp) b ->
      decode_fails b (None : option types_CoinsMarket) e ->
      outcome tr (CoinsMarket c ctx vsCurrency ids order perPage page sparkline pcp) w
      = Returned (None, Some e))
  /\ (∀ id localization tickers marketData communityData developerData sparkline,
      id ≠ "" ->
      delivers tr w c ctx
        (CoinsID_url c id localization tickers marketData communityData
           developerData sparkline) b ->
      decode_fails b (None : option types_CoinsID) e ->
      outcome tr
        (CoinsID c ctx id localization tickers marketData communityData
           developerData sparkline) w
      = Returned (None, Some e))
  /\ (∀ id page,
      id ≠ "" ->
      delivers tr w c ctx (CoinsIDTickers_url c id page) b ->
      decode_fails b (None : option types_CoinsIDTickers) e ->
      outcome tr (CoinsIDTickers c ctx id page) w = Returned (None, Some e))
  /\ (∀ id date localization,
      id ≠ "" -> date ≠ "" ->
      delivers tr w c ctx (CoinsIDHistory_url c id date localization) b ->
      decode_fails b (None : option types_CoinsIDHistory) e ->
      outcome tr (CoinsIDHistory c ctx id date localization) w
      = Returned (None, Some e))
  /\ (delivers tr w c ctx (EventsCountries_url c) b ->
      decode_fails b (None : option types_EventsCountries) e ->
      outcome tr (EventsCountries c ctx) w = Returned (None, Some e))
  /\ (delivers tr w c ctx (EventsTypes_url c) b ->
      decode_fails b (None : option types_EventsTypes) e ->
      outcome tr (EventsTypes c ctx) w = Returned (None, Some e))
  /\ (delivers tr w c ctx (ExchangeRates_url c) b ->
      decode_fails b (None : option types_ExchangeRatesResponse) e ->
      outcome tr (ExchangeRates c ctx) w = Returned (None, Some e))
  /\ (delivers tr w c ctx (AssetPlatforms_url c) b ->
      decode_fails b AssetPlatforms_nil e ->
      outcome tr (AssetPlatforms c ctx) w = Returned (AssetPlatforms_nil, Some e))
  /\ (delivers tr w c ctx (Global_url c) b ->
      decode_fails b (None : option types_GlobalResponse) e ->
      outcome tr (Global c ctx) w = Returned (None, Some e)).
Proof.
  unfold delivers, decode_fails.
  repeat match goal with |- _ /\ _ => split end; intros;
    repeat match goal with
    | Hne : ?s ≠ "" |- _ => destruct s; [done|]; clear Hne
    end.
  4: by eapply SimpleSinglePrice_decode_failure.
  all: cbv beta delta [CoinsIDMarketChart Ping SimplePrice
         SimpleSupportedVSCurrencies CoinsList CoinsMarket CoinsID CoinsIDTickers
         CoinsIDHistory EventsCountries EventsTypes ExchangeRates AssetPlatforms
         Global]; simpl.
  all: match goal with
       | Hm : outcome _ (MakeReq _ _ _) _ = _, Hd : (json_Unmarshal _ _).2 = _ |- _ =>
           after_request Hm; revert Hd
       end.
  all: destruct (json_Unmarshal _ _) as [v err]; simpl; by intros ->.
Qed.

(** C10: the body [null] is valid JSON, and [json.Unmarshal] leaves a nil
    pointer and no error for it.  When [MakeReq] delivers it,
    [EventsCountries], [ExchangeRates] and [Global] read a field through
    that nil pointer and panic: they return neither a result nor an error. *)
Theorem null_body_panics c ctx w :
  let null := String.list_byte_of_string "null" in
  delivers tr w c ctx (EventsCountries_url c) null ->
  delivers tr w c ctx (ExchangeRates_url c) null ->
  delivers tr w c ctx (Global_url c) null ->
  json_Unmarshal null (None : option types_EventsCountries) = (None, None) ->
  json_Unmarshal null (None : option types_ExchangeRatesResponse) = (None, None) ->
  json_Unmarshal null (None : option types_GlobalResponse) = (None, None) ->
  outcome tr (EventsCountries c ctx) w = Panicked nil_dereference
  /\ outcome tr (ExchangeRates c ctx) w = Panicked nil_dereference
  /\ outcome tr (Global c ctx) w = Panicked nil_dereference.
Proof.
  intros null He Hx Hg Hde Hdx Hdg. unfold delivers in *.
  unfold EventsCountries, ExchangeRates, Global.
  repeat split.
  - after_request He. by rewrite Hde.
  - after_request Hx. by rewrite Hdx.
  - after_request Hg. by rewrite Hdg.
Qed.

End Behaviour.

(** * Part III: the properties on the test double *)

Section OnTheTestDouble.
#[local] Existing Instance mock.platform.
#[local] Existing Instance mock.packages.

(** C1 at [bitcoin]/[eur] (the cell is there), at [ethereum]/[usd] (no
    row) and against a server that answers 500. *)
Lemma SimpleSinglePrice_cell_witness :
  outcome mock.price_server (SimpleSinglePrice mock.client () "bitcoin" "eur") 0%nat =
    Returned (Some (mkSimpleSinglePrice "bitcoin" "eur" 1), None)
  /\ outcome mock.price_server (SimpleSinglePrice mock.client () "ethereum" "usd") 0%nat =
     Returned (None, Some (fmt_Errorf "id or vsCurrency not existed"))
  /\ outcome (mock.always 500 "down") (SimpleSinglePrice mock.client () "bitcoin" "eur")
       0%nat =
     Returned (None, Some (fmt_Errorf "down")).
Proof.
  split; [|split].
  - apply (proj1 (SimpleSinglePrice_cell mock.price_server mock.client ()
                    "bitcoin" "eur" 0%nat eq_refl eq_refl)
             {[ "bitcoin" := {[ "eur" := 1 ]} ]} 1); by vm_compute.
  - apply (proj1 (proj2 (SimpleSinglePrice_cell mock.price_server mock.client ()
                           "ethereum" "usd" 0%nat eq_refl eq_refl)) ∅);
      [by vm_compute | left; by vm_compute].
  - apply (proj2 (proj2 (SimpleSinglePrice_cell (mock.always 500 "down") mock.client ()
                           "bitcoin" "eur" 0%nat eq_refl eq_refl)) None).
    by vm_compute.
Defined.

(** C1 as it was stated fails twice.  Asked for [bitcoin] in [usd], the
    server sends a row without [usd]: the cell is absent, and the code
    returns a price of zero and no error.  Asked for [BTC] in [usd], the
    multi-price lookup of [BTC] has the cell, with the value 7, and the
    single-price lookup, which asks for [btc] and then reads the row of
    [BTC], fails. *)
Lemma SimpleSinglePrice_counterexample :
  (outcome mock.price_server (SimplePrice mock.client () ["bitcoin"] ["usd"]) 0%nat =
     Returned (Some {[ "bitcoin" := {[ "eur" := 1 ]} ]}, None)
   /\ cell ({[ "bitcoin" := {[ "eur" := 1 ]} ]} : gmap string (gmap string Z))
        "bitcoin" "usd" = None
   /\ outcome mock.price_server (SimpleSinglePrice mock.client () "bitcoin" "usd") 0%nat =
      Returned (Some (mkSimpleSinglePrice "bitcoin" "usd" 0), None))
  /\ (outcome mock.price_server (SimplePrice mock.client () ["BTC"] ["usd"]) 0%nat =
        Returned (Some {[ "BTC" := {[ "usd" := 7 ]} ]}, None)
      /\ cell ({[ "BTC" := {[ "usd" := 7 ]} ]} : gmap string (gmap string Z))
           "BTC" "usd" = Some 7
      /\ outcome mock.price_server (SimpleSinglePrice mock.client () "BTC" "usd") 0%nat =
         Returned (None, Some (fmt_Errorf "id or vsCurrency not existed"))).
Proof. repeat split; by vm_compute. Qed.

(** C2 at the failing input: [localization] is true and [sparkline] is
    false, and the request carries [localization=false]. *)
Lemma CoinsID_localization_lost :
  URL <$> requests (mock.always 200 "{}")
            (CoinsID mock.client () "bitcoin" true false false false false false) 0%nat =
  [baseURL +:+ "/coins/bitcoin?community_data=false&developer_data=false" +:+
   "&localization=false&market_data=false&sparkline=false&tickers=false"].
Proof. by vm_compute. Qed.

(** C3 at 200 and at 404. *)
Lemma doReq_success_iff_200_witness :
  outcome (mock.always 200 "{}") (doReq mock.request "transport") 0%nat =
    Returned (String.list_byte_of_string "{}", None)
  /\ ∃ msg, outcome (mock.always 404 "gone") (doReq mock.request "transport") 0%nat =
            Returned ([], Some (fmt_Errorf msg)).
Proof.
  split.
  - apply (doReq_success_iff_200 (mock.always 200 "{}") mock.request "transport"
             0%nat 1%nat _ eq_refl eq_refl). reflexivity.
  - apply (doReq_success_iff_200 (mock.always 404 "gone") mock.request "transport"
             0%nat 1%nat _ eq_refl eq_refl). simpl. lia.
Defined.

(** C3 as it was stated fails at 204: a status of the 2xx range, and an
    error all the same. *)
Lemma doReq_rejects_204 :
  200 <= 204 < 300
  /\ outcome (mock.always 204 "") (doReq mock.request "transport") 0%nat =
     Returned ([], Some (fmt_Errorf (error_code_message 204))).
Proof. split; [lia|]. by vm_compute. Qed.

(** C4 at 500 and at 503 with an empty body, and at 404 with the body
    [{"error":"nope"}]. *)
Lemma doReq_error_message_witness :
  let quote := String (Ascii.ascii_of_nat 34) "" in
  outcome (mock.always 500 "") (doReq mock.request "transport") 0%nat =
    Returned ([], Some (fmt_Errorf
      ("{" +:+ quote +:+ "status" +:+ quote +:+ ": {" +:+ quote +:+ "error_code" +:+
       quote +:+ ": 500}}")))
  /\ outcome (mock.always 503 "") (doReq mock.request "transport") 0%nat =
     Returned ([], Some (fmt_Errorf
       ("{" +:+ quote +:+ "status" +:+ quote +:+ ": {" +:+ quote +:+ "error_code" +:+
        quote +:+ ": 503}}")))
  /\ outcome (mock.always 404 ("{" +:+ quote +:+ "error" +:+ quote +:+ ":" +:+ quote +:+
                               "nope" +:+ quote +:+ "}"))
       (doReq mock.request "transport") 0%nat =
     Returned ([], Some (fmt_Errorf
       ("{" +:+ quote +:+ "error" +:+ quote +:+ ":" +:+ quote +:+ "nope" +:+ quote +:+
        "}"))).
Proof.
  intros quote. split; [|split].
  - exact (proj1 (doReq_error_message (mock.always 500 "") mock.request "transport"
                    0%nat 1%nat _ eq_refl eq_refl ltac:(simpl; lia))).
  - exact (proj1 (doReq_error_message (mock.always 503 "") mock.request "transport"
                    0%nat 1%nat _ eq_refl eq_refl ltac:(simpl; lia))).
  - exact (proj1 (doReq_error_message (mock.always 404 _) mock.request "transport"
                    0%nat 1%nat _ eq_refl eq_refl ltac:(simpl; lia))).
Defined.

(** C4 as it was stated fails when the body cannot be read.  A 500 whose
    body breaks off before its first byte, and a 404 whose body breaks off
    after [{]: both are non-success responses, and the error returned is
    the one of reading the body, neither the text that carries the status
    code nor the bytes of the body. *)
Lemma doReq_unreadable_body_error :
  (bool_decide (500 = 200) = false
   /\ outcome (mock.unreadable 500 "unexpected EOF") (doReq mock.request "transport")
        0%nat =
      Returned ([], Some (lib_error "unexpected EOF")))
  /\ (bool_decide (404 = 200) = false
      /\ outcome (mock.truncated 404 "{" "unexpected EOF")
           (doReq mock.request "transport") 0%nat =
         Returned ([], Some (lib_error "unexpected EOF"))).
Proof. split; split; by vm_compute. Qed.

(** C5 at a page size of 100, of 0 and of 251. *)
Lemma CoinsMarket_paging_witness :
  (("per_page", "100") ∈
     url.query_fields (url.Encode (CoinsMarket_params "usd" ["bitcoin"] "" 100 2 false []))
   /\ ("page", "2") ∈
     url.query_fields (url.Encode (CoinsMarket_params "usd" ["bitcoin"] "" 100 2 false [])))
  /\ ("order", "market_cap_desc") ∈
     url.query_fields (url.Encode (CoinsMarket_params "usd" ["bitcoin"] "" 100 2 false []))
  /\ (("per_page" ∉
         url.query_keys (url.Encode (CoinsMarket_params "usd" [] "" 0 2 false [])))
      /\ ("page" ∉
         url.query_keys (url.Encode (CoinsMarket_params "usd" [] "" 0 2 false []))))
  /\ (("per_page" ∉
         url.query_keys (url.Encode (CoinsMarket_params "usd" [] "" 251 2 false [])))
      /\ ("page" ∉
         url.query_keys (url.Encode (CoinsMarket_params "usd" [] "" 251 2 false [])))).
Proof.
  split; [|split; [|split]].
  - exact (proj1 (proj2 (proj2 (CoinsMarket_paging (mock.always 200 "{}") mock.client
                                  () 0%nat "usd" ["bitcoin"] "" 100 2 false [])))
             ltac:(lia)).
  - exact (proj2 (proj2 (proj2 (CoinsMarket_paging (mock.always 200 "{}") mock.client
                                  () 0%nat "usd" ["bitcoin"] "" 100 2 false [])))
             eq_refl).
  - exact (proj1 (proj2 (CoinsMarket_paging (mock.always 200 "{}") mock.client
                           () 0%nat "usd" [] "" 0 2 false [])) ltac:(lia)).
  - exact (proj1 (proj2 (CoinsMarket_paging (mock.always 200 "{}") mock.client
                           () 0%nat "usd" [] "" 251 2 false [])) ltac:(lia)).
Defined.

(** C6 at a history request without a date and a chart request without a
    currency. *)
Lemma validation_precedes_request_witness :
  run (mock.always 200 "{}") (CoinsIDHistory mock.client () "bitcoin" "" false) 0%nat =
    (Returned (None, Some (fmt_Errorf "id and date is required")), [], 0%nat)
  /\ run (mock.always 200 "{}") (CoinsIDMarketChart mock.client () "bitcoin" "" "1") 0%nat =
     (Returned (None, Some (fmt_Errorf "id, vs_currency, and days is required")),
      [], 0%nat).
Proof.
  split.
  - apply (validation_precedes_request (mock.always 200 "{}") mock.client () 0%nat).
    right. reflexivity.
  - apply (validation_precedes_request (mock.always 200 "{}") mock.client () 0%nat).
    right. left. reflexivity.
Defined.

(** C9 at a chart body whose second field has the wrong type, and at a
    body that is no JSON for [Ping]. *)
Lemma decode_failure_results_witness :
  outcome (mock.always 200 mock.chart_body)
    (CoinsIDMarketChart mock.client () "bitcoin" "usd" "1") 0%nat =
    Returned (Some [(1, 2)], Some mock.type_error)
  /\ outcome (mock.always 200 "oops") (Ping mock.client ()) 0%nat =
     Returned (None, Some mock.syntax_error).
Proof.
  split.
  - exact (proj1 (decode_failure_results (mock.always 200 mock.chart_body) mock.client
                    () 0%nat (String.list_byte_of_string mock.chart_body)
                    mock.type_error)
             "bitcoin" "usd" "1" ltac:(done) ltac:(done) ltac:(done)
             ltac:(by vm_compute) ltac:(by vm_compute)).
  - exact (proj1 (proj2 (decode_failure_results (mock.always 200 "oops") mock.client
                           () 0%nat (String.list_byte_of_string "oops")
                           mock.syntax_error))
             ltac:(by vm_compute) ltac:(by vm_compute)).
Defined.

(** C10 against a server that answers 200 with the body [null]. *)
Lemma null_body_panics_witness :
  outcome (mock.always 200 "null") (EventsCountries mock.client ()) 0%nat =
    Panicked nil_dereference
  /\ outcome (mock.always 200 "null") (ExchangeRates mock.client ()) 0%nat =
     Panicked nil_dereference
  /\ outcome (mock.always 200 "null") (Global mock.client ()) 0%nat =
     Panicked nil_dereference.
Proof.
  apply (null_body_panics (mock.always 200 "null") mock.client () 0%nat);
    by vm_compute.
Defined.

End OnTheTestDouble.

(** * Part IV: further properties of the client *)

Ltac validate :=
  repeat match goal with
  | |- context [if ?b then Ret _ else _] => destruct b
  end.

Section Further.
Context `{Packages} {W : Type} (tr : Transport W).

Lemma run_doReq req client (w : W) :
  ∃ r w1, run tr (doReq req client) w = (Returned r, [req], w1)
          /\ (r.2 = None \/ r.1 = []).
Proof.
  unfold doReq. simpl. destruct (tr client req w) as [[resp|err] w1]; simpl.
  - destruct (rc_err (Body resp)); simpl; [by eauto 6|].
    repeat case_bool_decide; simpl; by eauto 6.
  - by eauto 6.
Qed.

Ltac MakeReq_script :=
  match goal with |- context [url_Parse_err ?u] => destruct (url_Parse_err u) end;
  [done|];
  rewrite run_bind;
  repeat case_bool_decide; try done; cbn [req_ctx Method URL];
  match goal with |- context [run ?tr (doReq ?r ?cl) ?w] =>
    let b := fresh "b" in let e := fresh "e" in let w1 := fresh "w1" in
    let Hshape := fresh "Hshape" in
    destruct (run_doReq r cl w) as ([b e] & w1 & -> & Hshape);
    simpl in *; destruct e; simpl; destruct Hshape as [?| ->]; done
  end.

(** [MakeReq] on a URL that [url.Parse] rejects returns the parse error and
    hands nothing to the transport.  On any other URL it is one [doReq],
    through the client's [httpClient], of a GET request for that URL under
    the caller's context, whose header holds [X-Cg-Pro-Api-Key] with the
    client's key when the key is not empty and is empty otherwise: the same
    result, the same request and the same transport state. *)
Theorem MakeReq_run c ctx u (w : W) :
  run tr (MakeReq c ctx u) w =
  match url_Parse_err u with
  | Some e => (Returned ([], Some (lib_error e)), [], w)
  | None =>
      run tr
        (doReq
           (mkRequest ctx "GET" u
              (if bool_decide (apiKey c ≠ "")
               then {[ "X-Cg-Pro-Api-Key" := [apiKey c] ]} else ∅))
           (httpClient c)) w
  end.
Proof. unfold MakeReq, http_NewRequestWithContext. by MakeReq_script. Qed.

Lemma MakeReq_cases c ctx u (w : W) :
  ∃ b e log w1, run tr (MakeReq c ctx u) w = (Returned (b, e), log, w1)
                /\ (length log <= 1)%nat.
Proof.
  unfold MakeReq, http_NewRequestWithContext.
  destruct (url_Parse_err u).
  { eexists _, _, _, _. split; [done|]. simpl. lia. }
  rewrite run_bind.
  match goal with |- context [doReq ?r ?cl] =>
    destruct (run_doReq r cl w) as ([b e] & w1 & -> & _)
  end.
  destruct e; eexists _, _, _, _; (split; [done|]); simpl; lia.
Qed.

Ltac split_all := repeat match goal with |- _ /\ _ => split end.

Lemma SimplePrice_cases c ctx ids vs (w : W) :
  ∃ r log w1, run tr (SimplePrice c ctx ids vs) w = (Returned r, log, w1)
              /\ (length log <= 1)%nat
              /\ (is_Some r.1 <-> r.2 = None).
Proof.
  unfold SimplePrice. rewrite run_bind.
  destruct (MakeReq_cases c ctx (SimplePrice_url c ids vs) w)
    as (b & e & log & w1 & -> & Hlen).
  destruct e as [e|]; simpl.
  - eexists _, _, _. rewrite app_nil_r. split; [done|]. split; [done|].
    simpl. split; [intros [? ?]; done | intros; first [done | by eexists]].
  - destruct (json_Unmarshal _ _) as [t [err|]]; simpl;
      eexists _, _, _; rewrite app_nil_r; (split; [done|]); (split; [done|]);
      simpl; (split; [intros [? ?]; done | intros; first [done | by eexists]]).
Qed.

(** No operation hands more than one request to the transport, whatever
    its arguments and whatever the transport answers. *)
Theorem at_most_one_request c ctx (w : W) :
  (length (requests tr (Ping c ctx) w) <= 1)%nat
  /\ (∀ ids vs, (length (requests tr (SimplePrice c ctx ids vs) w) <= 1)%nat)
  /\ (∀ id cur, (length (requests tr (SimpleSinglePrice c ctx id cur) w) <= 1)%nat)
  /\ (length (requests tr (SimpleSupportedVSCurrencies c ctx) w) <= 1)%nat
  /\ (∀ p, (length (requests tr (CoinsList c ctx p) w) <= 1)%nat)
  /\ (∀ vs ids order perPage page sparkline pcp,
        (length (requests tr (CoinsMarket c ctx vs ids order perPage page sparkline pcp) w)
         <= 1)%nat)
  /\ (∀ id l t m cd dd s,
        (length (requests tr (CoinsID c ctx id l t m cd dd s) w) <= 1)%nat)
  /\ (∀ id page, (length (requests tr (CoinsIDTickers c ctx id page) w) <= 1)%nat)
  /\ (∀ id date l, (length (requests tr (CoinsIDHistory c ctx id date l) w) <= 1)%nat)
  /\ (∀ id vs days,
        (length (requests tr (CoinsIDMarketChart c ctx id vs days) w) <= 1)%nat)
  /\ (length (requests tr (EventsCountries c ctx) w) <= 1)%nat
  /\ (length (requests tr (EventsTypes c ctx) w) <= 1)%nat
  /\ (length (requests tr (ExchangeRates c ctx) w) <= 1)%nat
  /\ (length (requests tr (AssetPlatforms c ctx) w) <= 1)%nat
  /\ (length (requests tr (Global c ctx) w) <= 1)%nat.
Proof.
  split_all; intros.
  3: { rewrite requests_SimpleSinglePrice. unfold requests.
       by destruct (SimplePrice_cases c ctx [strings_ToLower id] [strings_ToLower cur] w)
         as (r & log & w1 & -> & Hlen & _). }
  all: cbv beta delta [Ping SimplePrice SimpleSupportedVSCurrencies CoinsList
         CoinsMarket CoinsID CoinsIDTickers CoinsIDHistory CoinsIDMarketChart
         EventsCountries EventsTypes ExchangeRates AssetPlatforms Global].
  all: validate; try (simpl; lia).
  all: rewrite requests_bind_pure by pure_cases.
  all: unfold requests;
    match goal with |- context [MakeReq ?c ?ctx ?u] =>
      by destruct (MakeReq_cases c ctx u w) as (b & e & log & w1 & -> & Hlen)
    end.
Qed.

Ltac unfold_operation :=
  cbv beta delta [Ping SimplePrice SimpleSupportedVSCurrencies CoinsList
    CoinsMarket CoinsID CoinsIDTickers CoinsIDHistory CoinsIDMarketChart
    EventsCountries EventsTypes ExchangeRates AssetPlatforms Global].

Ltac outcome_cases :=
  unfold_operation; validate; try done;
  rewrite outcome_bind;
  match goal with |- context [MakeReq ?c ?ctx ?u] =>
    let b := fresh "b" in let e := fresh "e" in
    let log := fresh "log" in let w1 := fresh "w1" in
    match goal with |- context [run _ (MakeReq c ctx u) ?w] =>
      destruct (MakeReq_cases c ctx u w) as (b & e & log & w1 & -> & _)
    end;
    destruct e as [e|]; simpl; try done;
    destruct (json_Unmarshal _ _) as [? [?|]]; simpl; try done
  end.

Lemma SimpleSinglePrice_outcome c ctx id cur (w : W) :
  ∃ r, outcome tr (SimpleSinglePrice c ctx id cur) w = Returned r
       /\ (is_Some r.1 -> r.2 = None)
       /\ (∀ d, r.1 = Some d -> ID d = id /\ Currency d = cur).
Proof.
  unfold SimpleSinglePrice. rewrite outcome_bind.
  destruct (SimplePrice_cases c ctx [strings_ToLower id] [strings_ToLower cur] w)
    as ([[t|] [e|]] & log & w1 & -> & _ & Hr); simpl in *.
  - eexists. split; [done|]. split; [by intros [? ?]|done].
  - case_bool_decide; eexists; (split; [done|]); simpl;
      (split; [by intros [? ?] | by intros d [= <-]]).
  - eexists. split; [done|]. split; [by intros [? ?]|done].
  - destruct Hr as [_ Hr]. by destruct (Hr eq_refl).
Qed.

(** Twelve of the fifteen operations never panic: whatever the arguments,
    the transport's answer and the decoder's result, they return to the
    caller.  ([EventsCountries], [ExchangeRates] and [Global] are the three
    that can.) *)
Theorem twelve_operations_never_panic c ctx (w : W) :
  returns (outcome tr (Ping c ctx) w)
  /\ (∀ ids vs, returns (outcome tr (SimplePrice c ctx ids vs) w))
  /\ (∀ id cur, returns (outcome tr (SimpleSinglePrice c ctx id cur) w))
  /\ returns (outcome tr (SimpleSupportedVSCurrencies c ctx) w)
  /\ (∀ p, returns (outcome tr (CoinsList c ctx p) w))
  /\ (∀ vs ids order perPage page sparkline pcp,
        returns (outcome tr (CoinsMarket c ctx vs ids order perPage page sparkline pcp) w))
  /\ (∀ id l t m cd dd s, returns (outcome tr (CoinsID c ctx id l t m cd dd s) w))
  /\ (∀ id page, returns (outcome tr (CoinsIDTickers c ctx id page) w))
  /\ (∀ id date l, returns (outcome tr (CoinsIDHistory c ctx id date l) w))
  /\ (∀ id vs days, returns (outcome tr (CoinsIDMarketChart c ctx id vs days) w))
  /\ returns (outcome tr (EventsTypes c ctx) w)
  /\ returns (outcome tr (AssetPlatforms c ctx) w).
Proof.
  split_all; intros.
  3: by destruct (SimpleSinglePrice_outcome c ctx id cur w) as (r & -> & _).
  all: by outcome_cases.
Qed.

(** Every operation but [CoinsIDMarketChart] returns a nil result whenever
    it returns an error, whatever the cause of the error. *)
Theorem error_excludes_result c ctx (w : W) :
  nil_on_error (outcome tr (Ping c ctx) w)
  /\ (∀ ids vs, nil_on_error (outcome tr (SimplePrice c ctx ids vs) w))
  /\ (∀ id cur, nil_on_error (outcome tr (SimpleSinglePrice c ctx id cur) w))
  /\ nil_on_error (outcome tr (SimpleSupportedVSCurrencies c ctx) w)
  /\ (∀ p, nil_on_error (outcome tr (CoinsList c ctx p) w))
  /\ (∀ vs ids order perPage page sparkline pcp,
        nil_on_error
          (outcome tr (CoinsMarket c ctx vs ids order perPage page sparkline pcp) w))
  /\ (∀ id l t m cd dd s, nil_on_error (outcome tr (CoinsID c ctx id l t m cd dd s) w))
  /\ (∀ id page, nil_on_error (outcome tr (CoinsIDTickers c ctx id page) w))
  /\ (∀ id date l, nil_on_error (outcome tr (CoinsIDHistory c ctx id date l) w))
  /\ nil_on_error (outcome tr (EventsCountries c ctx) w)
  /\ nil_on_error (outcome tr (EventsTypes c ctx) w)
  /\ nil_on_error (outcome tr (ExchangeRates c ctx) w)
  /\ nil_on_error (outcome tr (Global c ctx) w)
  /\ match outcome tr (AssetPlatforms c ctx) w with
     | Returned (r, Some _) => r = AssetPlatforms_nil
     | _ => True
     end.
Proof.
  split_all; intros.
  3: { destruct (SimpleSinglePrice_outcome c ctx id cur w) as ([[d|] [e|]] & -> & Hr & _);
         try done. by discriminate Hr. }
  all: outcome_cases.
  all: repeat (simpl; try done;
         match goal with
         | |- context [match ?d with Some _ => _ | None => _ end] => destruct d
         | |- nil_on_error (Returned (?x, None)) => by destruct x
         end).
Qed.

Ltac nonempty_arguments :=
  repeat match goal with
  | Hne : ?s ≠ "" |- _ => destruct s; [done|]; clear Hne
  end.

(** When [MakeReq] fails (bad URL, transport failure, unreadable body,
    status other than 200), every operation whose arguments passed its
    check returns that very error, with a nil result; [CoinsIDMarketChart]
    too. *)
Theorem request_error_passes_through c ctx (w : W) (e : error) :
  (fails_with tr w c ctx (Ping_url c) e ->
   outcome tr (Ping c ctx) w = Returned (None, Some e))
  /\ (∀ ids vs,
      fails_with tr w c ctx (SimplePrice_url c ids vs) e ->
      outcome tr (SimplePrice c ctx ids vs) w = Returned (None, Some e))
  /\ (∀ id cur,
      fails_with tr w c ctx
        (SimplePrice_url c [strings_ToLower id] [strings_ToLower cur]) e ->
      outcome tr (SimpleSinglePrice c ctx id cur) w = Returned (None, Some e))
  /\ (fails_with tr w c ctx (SimpleSupportedVSCurrencies_url c) e ->
      outcome tr (SimpleSupportedVSCurrencies c ctx) w = Returned (None, Some e))
  /\ (∀ p,
      fails_with tr w c ctx (CoinsList_url c p) e ->
      outcome tr (CoinsList c ctx p) w = Returned (None, Some e))
  /\ (∀ vs ids order perPage page sparkline pcp,
      vs ≠ "" ->
      fails_with tr w c ctx (CoinsMarket_url c vs ids order perPage page sparkline pcp) e ->
      outcome tr (CoinsMarket c ctx vs ids order perPage page sparkline pcp) w
      = Returned (None, Some e))
  /\ (∀ id l t m cd dd s,
      id ≠ "" ->
      fails_with tr w c ctx (CoinsID_url c id l t m cd dd s) e ->
      outcome tr (CoinsID c ctx id l t m cd dd s) w = Returned (None, Some e))
  /\ (∀ id page,
      id ≠ "" ->
      fails_with tr w c ctx (CoinsIDTickers_url c id page) e ->
      outcome tr (CoinsIDTickers c ctx id page) w = Returned (None, Some e))
  /\ (∀ id date l,
      id ≠ "" -> date ≠ "" ->
      fails_with tr w c ctx (CoinsIDHistory_url c id date l) e ->
      outcome tr (CoinsIDHistory c ctx id date l) w = Returned (None, Some e))
  /\ (∀ id vs days,
      id ≠ "" -> vs ≠ "" -> days ≠ "" ->
      fails_with tr w c ctx (CoinsIDMarketChart_url c id vs days) e ->
      outcome tr (CoinsIDMarketChart c ctx id vs days) w = Returned (None, Some e))
  /\ (fails_with tr w c ctx (EventsCountries_url c) e ->
      outcome tr (EventsCountries c ctx) w = Returned (None, Some e))
  /\ (fails_with tr w c ctx (EventsTypes_url c) e ->
      outcome tr (EventsTypes c ctx) w = Returned (None, Some e))
  /\ (fails_with tr w c ctx (ExchangeRates_url c) e ->
      outcome tr (ExchangeRates c ctx) w = Returned (None, Some e))
  /\ (fails_with tr w c ctx (AssetPlatforms_url c) e ->
      outcome tr (AssetPlatforms c ctx) w = Returned (AssetPlatforms_nil, Some e))
  /\ (fails_with tr w c ctx (Global_url c) e ->
      outcome tr (Global c ctx) w = Returned (None, Some e)).
Proof.
  unfold fails_with. split_all; intros; nonempty_arguments;
    match goal with Hex : ∃ _, _ |- _ => destruct Hex as [b Hf] end.
  3: { unfold SimpleSinglePrice.
       assert (outcome tr (SimplePrice c ctx [strings_ToLower id] [strings_ToLower cur]) w
               = Returned (None, Some e)) as Hsp.
       { unfold SimplePrice. by after_request Hf. }
       by after_request Hsp. }
  all: unfold_operation; simpl; by after_request Hf.
Qed.

(** When [MakeReq] delivers a body and [json.Unmarshal] reports no error,
    an operation returns what the decoder left: the pointer itself, nil
    included, for the operations that return the decoded pointer, the
    map or structure behind a fresh pointer for [SimplePrice] and
    [CoinsIDMarketChart], and the field [Data] or [Rates] of the decoded
    structure for [EventsCountries], [ExchangeRates] and [Global]. *)
Theorem decoded_value_is_returned c ctx (w : W) (b : list byte) :
  (∀ v, delivers tr w c ctx (Ping_url c) b ->
        decodes b (None : option types_Ping) v ->
        outcome tr (Ping c ctx) w = Returned (v, None))
  /\ (∀ ids vs t,
      delivers tr w c ctx (SimplePrice_url c ids vs) b ->
      decodes b (∅ : gmap string (gmap string float32)) t ->
      outcome tr (SimplePrice c ctx ids vs) w = Returned (Some t, None))
  /\ (∀ v, delivers tr w c ctx (SimpleSupportedVSCurrencies_url c) b ->
        decodes b (None : option types_SimpleSupportedVSCurrencies) v ->
        outcome tr (SimpleSupportedVSCurrencies c ctx) w = Returned (v, None))
  /\ (∀ p v,
      delivers tr w c ctx (CoinsList_url c p) b ->
      decodes b (None : option types_CoinList) v ->
      outcome tr (CoinsList c ctx p) w = Returned (v, None))
  /\ (∀ vs ids order perPage page sparkline pcp v,
      vs ≠ "" ->
      delivers tr w c ctx (CoinsMarket_url c vs ids order perPage page sparkline pcp) b ->
      decodes b (None : option types_CoinsMarket) v ->
      outcome tr (CoinsMarket c ctx vs ids order perPage page sparkline pcp) w
      = Returned (v, None))
  /\ (∀ id l t m cd dd s v,
      id ≠ "" ->
      delivers tr w c ctx (CoinsID_url c id l t m cd dd s) b ->
      decodes b (None : option types_CoinsID) v ->
      outcome tr (CoinsID c ctx id l t m cd dd s) w = Returned (v, None))
  /\ (∀ id page v,
      id ≠ "" ->
      delivers tr w c ctx (CoinsIDTickers_url c id page) b ->
      decodes b (None : option types_CoinsIDTickers) v ->
      outcome tr (CoinsIDTickers c ctx id page) w = Returned (v, None))
  /\ (∀ id date l v,
      id ≠ "" -> date ≠ "" ->
      delivers tr w c ctx (CoinsIDHistory_url c id date l) b ->
      decodes b (None : option types_CoinsIDHistory) v ->
      outcome tr (CoinsIDHistory c ctx id date l) w = Returned (v, None))
  /\ (∀ id vs days m,
      id ≠ "" -> vs ≠ "" -> days ≠ "" ->
      delivers tr w c ctx (CoinsIDMarketChart_url c id vs days) b ->
      decodes b CoinsIDMarketChart_zero m ->
      outcome tr (CoinsIDMarketChart c ctx id vs days) w = Returned (Some m, None))
  /\ (∀ d, delivers tr w c ctx (EventsCountries_url c) b ->
        decodes b (None : option types_EventsCountries) (Some d) ->
        outcome tr (EventsCountries c ctx) w = Returned (EventsCountries_Data d, None))
  /\ (∀ v, delivers tr w c ctx (EventsTypes_url c) b ->
        decodes b (None : option types_EventsTypes) v ->
        outcome tr (EventsTypes c ctx) w = Returned (v, None))
  /\ (∀ d, delivers tr w c ctx (ExchangeRates_url c) b ->
        decodes b (None : option types_ExchangeRatesResponse) (Some d) ->
        outcome tr (ExchangeRates c ctx) w
        = Returned (Some (ExchangeRatesResponse_Rates d), None))
  /\ (∀ v, delivers tr w c ctx (AssetPlatforms_url c) b ->
        decodes b AssetPlatforms_nil v ->
        outcome tr (AssetPlatforms c ctx) w = Returned (v, None))
  /\ (∀ d, delivers tr w c ctx (Global_url c) b ->
        decodes b (None : option types_GlobalResponse) (Some d) ->
        outcome tr (Global c ctx) w = Returned (Some (GlobalResponse_Data d), None)).
Proof.
  unfold delivers, decodes. split_all; intros; nonempty_arguments.
  all: unfold_operation; simpl.
  all: match goal with
       | Hm : outcome _ (MakeReq _ _ _) _ = _, Hd : json_Unmarshal _ _ = _ |- _ =>
           after_request Hm; by rewrite Hd
       end.
Qed.

(** When the table [SimplePrice] returns has a row for the id that is not
    empty and holds no entry for the currency, [SimpleSinglePrice] returns
    a result with the zero price and no error. *)
Theorem SimpleSinglePrice_missing_currency c ctx id cur (w : W) t row :
  outcome tr (SimplePrice c ctx [strings_ToLower id] [strings_ToLower cur]) w
    = Returned (Some t, None) ->
  t !! id = Some row ->
  row ≠ ∅ ->
  row !! cur = None ->
  outcome tr (SimpleSinglePrice c ctx id cur) w =
  Returned (Some (mkSimpleSinglePrice id cur float32_zero), None).
Proof.
  intros Hsp Hrow Hne Hcur. unfold SimpleSinglePrice. after_request Hsp.
  rewrite Hrow. simpl. rewrite bool_decide_false.
  - by rewrite Hcur.
  - by intros ?%map_size_empty_iff.
Qed.

(** When [strings.ToLower] changes the id and the table [SimplePrice]
    returns has rows for the lower-cased id only (the id the server was
    asked for), [SimpleSinglePrice] fails with "id or vsCurrency not
    existed": it looks the row up under the id as given. *)
Theorem SimpleSinglePrice_case_changed_id c ctx id cur (w : W) t :
  strings_ToLower id ≠ id ->
  outcome tr (SimplePrice c ctx [strings_ToLower id] [strings_ToLower cur]) w
    = Returned (Some t, None) ->
  (∀ k, is_Some (t !! k) -> k = strings_ToLower id) ->
  outcome tr (SimpleSinglePrice c ctx id cur) w =
  Returned (None, Some (fmt_Errorf "id or vsCurrency not existed")).
Proof.
  intros Hlow Hsp Hkeys. unfold SimpleSinglePrice. after_request Hsp.
  destruct (t !! id) as [row|] eqn:Hrow; [|done].
  destruct Hlow. symmetry. apply Hkeys. by rewrite Hrow.
Qed.

(** [doReq] returns the transport's error as it is, and the error of
    reading the body as it is, whatever the status code (200 included);
    in both cases without bytes, after handing the one request to the
    transport. *)
Theorem doReq_failure_passes_through req client (w w1 : W) (e : error) :
  (tr client req w = (inr e, w1) ->
   run tr (doReq req client) w = (Returned ([], Some e), [req], w1))
  /\ (∀ resp,
      tr client req w = (inl resp, w1) ->
      rc_err (Body resp) = Some e ->
      run tr (doReq req client) w = (Returned ([], Some e), [req], w1)).
Proof.
  split.
  - intros Htr. unfold doReq. simpl. by rewrite Htr.
  - intros resp Htr Hread. unfold doReq, ioutil_ReadAll. simpl.
    by rewrite Htr, Hread.
Qed.

Lemma URL_requests_bind_MakeReq {A} c ctx u (k : list byte * option error -> Prog A)
    (w : W) :
  (∀ r, pure (k r)) ->
  URL <$> requests tr (bind (MakeReq c ctx u) k) w =
  match url_Parse_err u with Some _ => [] | None => [u] end.
Proof. intros Hk. by rewrite requests_bind_pure, URL_requests_MakeReq. Qed.

Lemma query_of_fields v fs :
  url.Encode_fields v = fs ->
  url.Encode v = String.concat "&" ((fun f => f.1 +:+ "=" +:+ f.2) <$> fs)
  /\ url.query_fields (url.Encode v) = fs.
Proof. intros <-. split; [done|]. apply query_fields_Encode. Qed.

Lemma Bool2String_unreserved b :
  url.QueryEscape (format_Bool2String b) = format_Bool2String b.
Proof. by destruct b. Qed.

Lemma CoinsIDTickers_fields page :
  url.Encode_fields
    (if bool_decide (page > 0) then url.Add ∅ "page" (format_Int2String page) else ∅) =
  if bool_decide (page > 0) then [url.field "page" (format_Int2String page)] else [].
Proof.
  case_bool_decide; [|done].
  unfold url.Encode_fields, url.field. generalize (format_Int2String page) url.QueryEscape.
  intros a esc. by vm_compute.
Qed.

(** The URL [CoinsIDTickers] asks for, and the fields of the text [q] it
    writes after the [?]. *)
Lemma CoinsIDTickers_sent c ctx id page (w : W) :
  let q := if bool_decide (page > 0)
           then "page=" +:+ url.QueryEscape (format_Int2String page) else "" in
  URL <$> requests tr (CoinsIDTickers c ctx id page) w =
    (if bool_decide (id = "") then []
     else match url_Parse_err (url c +:+ "/coins/" +:+ id +:+ "/tickers?" +:+ q) with
          | Some _ => []
          | None => [url c +:+ "/coins/" +:+ id +:+ "/tickers?" +:+ q]
          end)
  /\ url.query_fields q =
     (if bool_decide (page > 0)
      then [("page", url.QueryEscape (format_Int2String page))] else []).
Proof.
  intros q.
  destruct (query_of_fields _ _ (CoinsIDTickers_fields page)) as [Henc Hfields].
  assert (Hq : url.Encode (if bool_decide (page > 0)
                           then url.Add ∅ "page" (format_Int2String page) else ∅) = q).
  { rewrite Henc. unfold q. case_bool_decide; [|done]. unfold url.field.
    generalize (url.QueryEscape (format_Int2String page)). intros a. by vm_compute. }
  split.
  - unfold CoinsIDTickers. destruct id; [done|]. simpl.
    rewrite URL_requests_bind_MakeReq by pure_cases.
    unfold CoinsIDTickers_url. by rewrite Hq.
  - rewrite <-Hq, Hfields. by case_bool_decide.
Qed.

Lemma CoinsIDHistory_fields date l :
  url.Encode_fields (url.Add (url.Add ∅ "date" date) "localization" l) =
  [url.field "date" date; url.field "localization" l].
Proof.
  unfold url.Encode_fields, url.field. generalize url.QueryEscape. intros esc.
  by vm_compute.
Qed.

(** The URL [CoinsIDHistory] asks for, and the fields of the text [q] it
    writes after the [?]. *)
Lemma CoinsIDHistory_sent c ctx id date localization (w : W) :
  let q := "date=" +:+ url.QueryEscape date +:+
           "&localization=" +:+ format_Bool2String localization in
  URL <$> requests tr (CoinsIDHistory c ctx id date localization) w =
    (if bool_decide (id = "") || bool_decide (date = "") then []
     else match url_Parse_err (url c +:+ "/coins/" +:+ id +:+ "/history?" +:+ q) with
          | Some _ => []
          | None => [url c +:+ "/coins/" +:+ id +:+ "/history?" +:+ q]
          end)
  /\ url.query_fields q =
     [("date", url.QueryEscape date);
      ("localization", format_Bool2String localization)].
Proof.
  intros q.
  destruct (query_of_fields _ _
              (CoinsIDHistory_fields date (format_Bool2String localization)))
    as [Henc Hfields].
  assert (Hq : url.Encode (url.Add (url.Add ∅ "date" date) "localization"
                             (format_Bool2String localization)) = q).
  { rewrite Henc. unfold q, url.field. rewrite Bool2String_unreserved.
    generalize (url.QueryEscape date) (format_Bool2String localization).
    intros a b. by vm_compute. }
  split.
  - unfold CoinsIDHistory. destruct id; [done|]. destruct date; [done|]. simpl.
    rewrite URL_requests_bind_MakeReq by pure_cases.
    unfold CoinsIDHistory_url. by rewrite Hq.
  - rewrite <-Hq, Hfields. unfold url.field. by rewrite Bool2String_unreserved.
Qed.

Lemma CoinsIDMarketChart_fields vs days :
  url.Encode_fields (url.Add (url.Add ∅ "vs_currency" vs) "days" days) =
  [url.field "days" days; url.field "vs_currency" vs].
Proof.
  unfold url.Encode_fields, url.field. generalize url.QueryEscape. intros esc.
  by vm_compute.
Qed.

(** The URL [CoinsIDMarketChart] asks for, and the fields of the text [q]
    it writes after the [?]. *)
Lemma CoinsIDMarketChart_sent c ctx id vs days (w : W) :
  let q := "days=" +:+ url.QueryEscape days +:+
           "&vs_currency=" +:+ url.QueryEscape vs in
  URL <$> requests tr (CoinsIDMarketChart c ctx id vs days) w =
    (if bool_decide (id = "") || bool_decide (vs = "") || bool_decide (days = "")
     then []
     else match url_Parse_err
                  (url c +:+ "/coins/" +:+ id +:+ "/market_chart?" +:+ q) with
          | Some _ => []
          | None => [url c +:+ "/coins/" +:+ id +:+ "/market_chart?" +:+ q]
          end)
  /\ url.query_fields q =
     [("days", url.QueryEscape days); ("vs_currency", url.QueryEscape vs)].
Proof.
  intros q.
  destruct (query_of_fields _ _ (CoinsIDMarketChart_fields vs days)) as [Henc Hfields].
  assert (Hq : url.Encode (url.Add (url.Add ∅ "vs_currency" vs) "days" days) = q).
  { rewrite Henc. unfold q, url.field.
    generalize (url.QueryEscape days) (url.QueryEscape vs).
    intros a b. by vm_compute. }
  split.
  - unfold CoinsIDMarketChart.
    destruct id; [done|]. destruct vs; [done|]. destruct days; [done|]. simpl.
    rewrite URL_requests_bind_MakeReq by pure_cases.
    unfold CoinsIDMarketChart_url. by rewrite Hq.
  - by rewrite <-Hq, Hfields.
Qed.


Lemma QueryEscape_app a b :
  url.QueryEscape (a +:+ b) = url.QueryEscape a +:+ url.QueryEscape b.
Proof.
  induction a as [|x a IH]; [done|]. simpl.
  destruct (url.shouldEscape x); [destruct (Ascii.eqb x " ")|]; simpl; by rewrite IH.
Qed.

(** The elements of a joined list are escaped one by one, and the commas
    between them are sent as [%2C]. *)
Lemma QueryEscape_Join l :
  url.QueryEscape (strings_Join l ",") = strings_Join (url.QueryEscape <$> l) "%2C".
Proof.
  unfold strings_Join. induction l as [|x [|y l] IH]; [done|done|].
  change (String.concat "," (x :: y :: l))
    with (x +:+ "," +:+ String.concat "," (y :: l)).
  rewrite !QueryEscape_app, IH. done.
Qed.


(** The fields of the query [CoinsMarket] builds, in the order they are
    sent: [ids] when the list is not empty, [order] (the argument, or
    [MarketCapDesc] for an empty one), [page] and [per_page] when
    [0 < perPage <= 250], [price_change_percentage] when the list is not
    empty, [sparkline] and [vs_currency].  Values are escaped, so no
    argument adds or hides a field. *)
Theorem CoinsMarket_query_fields vs ids order perPage page (sparkline : bool) pcp :
  url.query_fields
    (url.Encode (CoinsMarket_params vs ids order perPage page sparkline pcp)) =
  ((if bool_decide (ids = []) then []
    else [("ids", strings_Join (url.QueryEscape <$> ids) "%2C")]) ++
   [("order", url.QueryEscape (if bool_decide (order = "")
                               then types_MarketCapDesc else order))] ++
   (if bool_decide (0 < perPage <= 250)
    then [("page", url.QueryEscape (format_Int2String page));
          ("per_page", url.QueryEscape (format_Int2String perPage))] else []) ++
   (if bool_decide (pcp = []) then []
    else [("price_change_percentage", strings_Join (url.QueryEscape <$> pcp) "%2C")]) ++
   [("sparkline", if sparkline then "true" else "false");
    ("vs_currency", url.QueryEscape vs)])%list.
Proof.
  rewrite query_fields_Encode, CoinsMarket_fields, <-!QueryEscape_Join.
  unfold url.field. rewrite Bool2String_unreserved.
  assert (bool_decide (perPage > 0) && bool_decide (perPage <= 250)
          = bool_decide (0 < perPage <= 250)) as ->.
  { repeat case_bool_decide; simpl; try done; lia. }
  destruct ids, pcp, order, sparkline; simpl; repeat case_bool_decide; try done.
Qed.

(** A client made by [NewClient] sends its requests to the pro host with
    the key in the header [X-Cg-Pro-Api-Key] when the key is not empty, and
    to the public host with an empty header otherwise; it sends them
    through the transport it was given, or through [http.DefaultClient]
    when that was nil. *)
Theorem NewClient_request transport key ctx path (w : W) :
  let c := NewClient transport key in
  let u := (if bool_decide (key = "") then baseURL else proURL) +:+ path in
  run tr (MakeReq c ctx (url c +:+ path)) w =
  match url_Parse_err u with
  | Some e => (Returned ([], Some (lib_error e)), [], w)
  | None =>
      run tr
        (doReq
           (mkRequest ctx "GET" u
              (if bool_decide (key = "") then ∅
               else {[ "X-Cg-Pro-Api-Key" := [key] ]}))
           (default http_DefaultClient transport)) w
  end.
Proof.
  intros c u. unfold c, u, NewClient, NewClientWithURL, MakeReq,
    http_NewRequestWithContext.
  destruct transport as [cl|]; destruct (decide (key = "")) as [->|Hkey];
    cbn [url apiKey httpClient from_option id];
    rewrite ?(bool_decide_true (key ≠ "")), ?(bool_decide_false (key = "")) by done;
    change (bool_decide ("" = "")) with true;
    change (bool_decide ("" ≠ "")) with false;
    cbv iota;
    by MakeReq_script.
Qed.

Ltac panic_cases Hp :=
  unfold EventsCountries, ExchangeRates, Global in Hp; rewrite outcome_bind in Hp;
  match type of Hp with context [run _ (MakeReq ?c ?ctx ?u) ?w] =>
    let b := fresh "b" in let e := fresh "e" in let log := fresh "log" in
    let w1 := fresh "w1" in let Hrun := fresh "Hrun" in
    destruct (MakeReq_cases c ctx u w) as (b & e & log & w1 & Hrun & _);
    rewrite Hrun in Hp; destruct e; simpl in Hp; [done|];
    let Hd := fresh "Hd" in
    destruct (json_Unmarshal b _) as [[?|] [?|]] eqn:Hd; simpl in Hp; try done;
    try (injection Hp as <-; done);
    try (exists b; split; [unfold outcome; by rewrite Hrun | done])
  end.

(** [EventsCountries], [ExchangeRates] and [Global] panic exactly when
    [MakeReq] delivers a body that [json.Unmarshal] decodes to a nil
    pointer without error, and the panic is the nil dereference. *)
Theorem panic_only_through_nil_pointer c ctx (w : W) :
  (outcome tr (EventsCountries c ctx) w = Panicked nil_dereference <->
   ∃ b, delivers tr w c ctx (EventsCountries_url c) b
        /\ decodes b (None : option types_EventsCountries) None)
  /\ (outcome tr (ExchangeRates c ctx) w = Panicked nil_dereference <->
      ∃ b, delivers tr w c ctx (ExchangeRates_url c) b
           /\ decodes b (None : option types_ExchangeRatesResponse) None)
  /\ (outcome tr (Global c ctx) w = Panicked nil_dereference <->
      ∃ b, delivers tr w c ctx (Global_url c) b
           /\ decodes b (None : option types_GlobalResponse) None)
  /\ (∀ msg, outcome tr (EventsCountries c ctx) w = Panicked msg
             \/ outcome tr (ExchangeRates c ctx) w = Panicked msg
             \/ outcome tr (Global c ctx) w = Panicked msg ->
             msg = nil_dereference).
Proof.
  unfold delivers, decodes.
  split; [|split; [|split]]; [split|split|split|].
  1,3,5: intros Hp; by panic_cases Hp.
  1,2,3: intros (b & Hm & Hd); unfold EventsCountries, ExchangeRates, Global;
    after_request Hm; by rewrite Hd.
  intros msg [Hp|[Hp|Hp]]; by panic_cases Hp.
Qed.

End Further.

(** ** The query a request carries when the id goes into the path

    Four operations put the id into the path as given, without escaping
    it.  What the request carries as its query is [url.RawQuery] of the
    whole URL, so the text the operation writes after its own [?] is the
    query only for an id without [?] and [#]. *)

Lemma Cut_free sep s : url.occurs sep s = false -> url.Cut sep s = (s, "").
Proof.
  induction s as [|c s IH]; simpl; [done|]. intros [Hc Hs]%orb_false_elim.
  by rewrite Hc, IH.
Qed.








Lemma RawQuery_fragment base path a b rest :
  url.plain base -> url.plain path -> url.plain a ->
  url.RawQuery (base +:+ path +:+ (a +:+ "#" +:+ b) +:+ rest) = "".
Proof.
  intros [Hc1 Hc2] [Hp1 Hp2] [Ha1 Ha2]. unfold url.RawQuery.
  replace (base +:+ path +:+ (a +:+ "#" +:+ b) +:+ rest)
    with ((base +:+ path +:+ a) +:+ String "#" (b +:+ rest)).
  - rewrite Cut_app by (by rewrite !occurs_app, Hc2, Hp2, Ha2).
    simpl. rewrite Cut_free by (by rewrite !occurs_app, Hc1, Hp1, Ha1). done.
  - by rewrite !append_assoc.
Qed.

Lemma sent_URL `{Platform} (log : list Request) (b : bool) (e : option lib_err) u r :
  URL <$> log = (if b then [] else match e with Some _ => [] | None => [u] end) ->
  r ∈ log -> URL r = u.
Proof.
  intros Hlog Hr. apply (list_elem_of_fmap_2 URL) in Hr. rewrite Hlog in Hr.
  destruct b; [by apply elem_of_nil in Hr|].
  destruct e; [by apply elem_of_nil in Hr|].
  by apply list_elem_of_singleton in Hr.
Qed.

Section Paths.
Context `{Packages} {W : Type} (tr : Transport W).





(** The id is not escaped: an id with a [#] in it, after a text without
    [?] and [#], starts the fragment of the URL, and every request
    [CoinsID], [CoinsIDTickers], [CoinsIDHistory] and [CoinsIDMarketChart]
    send for it carries an empty query, whatever the other arguments
    are. *)
Theorem unescaped_id_drops_the_query c ctx a b (w : W) :
  url.plain (url c) ->
  url.plain a ->
  let id := a +:+ "#" +:+ b in
  (∀ l t m cd dd s r,
     r ∈ requests tr (CoinsID c ctx id l t m cd dd s) w -> url.RawQuery (URL r) = "")
  /\ (∀ page r,
        r ∈ requests tr (CoinsIDTickers c ctx id page) w -> url.RawQuery (URL r) = "")
  /\ (∀ date l r,
        r ∈ requests tr (CoinsIDHistory c ctx id date l) w -> url.RawQuery (URL r) = "")
  /\ (∀ vs days r,
        r ∈ requests tr (CoinsIDMarketChart c ctx id vs days) w ->
        url.RawQuery (URL r) = "").
Proof.
  intros Hc Ha id.
  assert (Hcut : ∀ rest, url.RawQuery (url c +:+ "/coins/" +:+ id +:+ rest) = "").
  { intros rest. by apply RawQuery_fragment. }
  split; [|split; [|split]].
  - intros l t m cd dd s r Hr.
    assert (Hsent : URL <$> requests tr (CoinsID c ctx id l t m cd dd s) w =
              (if bool_decide (id = "") then []
               else match url_Parse_err (CoinsID_url c id l t m cd dd s) with
                    | Some _ => []
                    | None => [CoinsID_url c id l t m cd dd s]
                    end)).
    { rewrite requests_CoinsID. case_bool_decide; [done|].
      by rewrite URL_requests_MakeReq. }
    rewrite (sent_URL _ _ _ _ _ Hsent Hr). apply Hcut.
  - intros page r Hr.
    destruct (CoinsIDTickers_sent tr c ctx id page w) as [Hsent _].
    rewrite (sent_URL _ _ _ _ _ Hsent Hr). apply Hcut.
  - intros date l r Hr.
    destruct (CoinsIDHistory_sent tr c ctx id date l w) as [Hsent _].
    rewrite (sent_URL _ _ _ _ _ Hsent Hr). apply Hcut.
  - intros vs days r Hr.
    destruct (CoinsIDMarketChart_sent tr c ctx id vs days w) as [Hsent _].
    rewrite (sent_URL _ _ _ _ _ Hsent Hr). apply Hcut.
Qed.

End Paths.

(** * Part V: the further properties on the test double *)

Section FurtherOnTheTestDouble.
#[local] Existing Instance mock.platform.
#[local] Existing Instance mock.packages.

(** A refused connection, and a 200 whose body breaks off. *)
Lemma doReq_failure_passes_through_witness :
  run (mock.broken "connection refused") (doReq mock.request "transport") 0%nat =
    (Returned ([], Some (lib_error "connection refused")), [mock.request], 1%nat)
  /\ run (mock.unreadable 200 "unexpected EOF") (doReq mock.request "transport") 0%nat =
     (Returned ([], Some (lib_error "unexpected EOF")), [mock.request], 1%nat).
Proof.
  split.
  - exact (proj1 (doReq_failure_passes_through (mock.broken "connection refused")
                    mock.request "transport" 0%nat 1%nat
                    (lib_error "connection refused")) eq_refl).
  - exact (proj2 (doReq_failure_passes_through (mock.unreadable 200 "unexpected EOF")
                    mock.request "transport" 0%nat 1%nat
                    (lib_error "unexpected EOF")) _ eq_refl eq_refl).
Defined.

(** A 500 under [Ping], a refused connection under [CoinsIDMarketChart]. *)
Lemma request_error_passes_through_witness :
  outcome (mock.always 500 "down") (Ping mock.client ()) 0%nat =
    Returned (None, Some (fmt_Errorf "down"))
  /\ outcome (mock.broken "connection refused")
       (CoinsIDMarketChart mock.client () "bitcoin" "usd" "1") 0%nat =
     Returned (None, Some (lib_error "connection refused")).
Proof.
  split.
  - exact (proj1 (request_error_passes_through (mock.always 500 "down") mock.client ()
                    0%nat (fmt_Errorf "down"))
             (ex_intro _ [] eq_refl)).
  - exact (proj1 (proj2 (proj2 (proj2 (proj2 (proj2 (proj2 (proj2 (proj2 (proj2
             (request_error_passes_through (mock.broken "connection refused") mock.client ()
                0%nat (lib_error "connection refused")))))))))))
             "bitcoin" "usd" "1" ltac:(done) ltac:(done) ltac:(done)
             (ex_intro _ [] eq_refl)).
Defined.

(** [Ping] on the body [{}] and on the body [null]: the second returns
    neither a result nor an error. *)
Lemma decoded_value_is_returned_witness :
  outcome (mock.always 200 "{}") (Ping mock.client ()) 0%nat = Returned (Some "", None)
  /\ outcome (mock.always 200 "null") (Ping mock.client ()) 0%nat = Returned (None, None).
Proof.
  split.
  - exact (proj1 (decoded_value_is_returned (mock.always 200 "{}") mock.client ()
                    0%nat (String.list_byte_of_string "{}"))
             (Some "") ltac:(by vm_compute) ltac:(by vm_compute)).
  - exact (proj1 (decoded_value_is_returned (mock.always 200 "null") mock.client ()
                    0%nat (String.list_byte_of_string "null"))
             None ltac:(by vm_compute) ltac:(by vm_compute)).
Defined.

(** [bitcoin] in [usd] against a row that holds [eur] only. *)
Lemma SimpleSinglePrice_missing_currency_witness :
  outcome mock.price_server (SimpleSinglePrice mock.client () "bitcoin" "usd") 0%nat =
  Returned (Some (mkSimpleSinglePrice "bitcoin" "usd" 0), None).
Proof.
  apply (SimpleSinglePrice_missing_currency mock.price_server mock.client ()
           "bitcoin" "usd" 0%nat {[ "bitcoin" := {[ "eur" := 1 ]} ]} {[ "eur" := 1 ]});
    by vm_compute.
Defined.

(** [BTC] in [usd]: the server is asked for [btc] and answers under [btc]. *)
Lemma SimpleSinglePrice_case_changed_id_witness :
  outcome mock.price_server (SimpleSinglePrice mock.client () "BTC" "usd") 0%nat =
  Returned (None, Some (fmt_Errorf "id or vsCurrency not existed")).
Proof.
  apply (SimpleSinglePrice_case_changed_id mock.price_server mock.client ()
           "BTC" "usd" 0%nat {[ "btc" := {[ "usd" := 7 ]} ]}).
  - by vm_compute.
  - by vm_compute.
  - intros k [row Hk]. by apply lookup_singleton_Some in Hk as [<- _].
Defined.

(** A server that answers 200 with the body [null], under [Global]. *)
Lemma panic_only_through_nil_pointer_witness :
  outcome (mock.always 200 "null") (Global mock.client ()) 0%nat =
  Panicked nil_dereference.
Proof.
  apply (panic_only_through_nil_pointer (mock.always 200 "null") mock.client () 0%nat).
  exists (String.list_byte_of_string "null"). split; by vm_compute.
Defined.





(** The id [bitcoin#x]: the page request is sent with the page written
    after the [#], and carries no query. *)
Lemma unescaped_id_drops_the_query_witness :
  URL <$> requests (mock.always 200 "{}")
            (CoinsIDTickers mock.client () "bitcoin#x" 3) 0%nat =
    [baseURL +:+ "/coins/bitcoin#x/tickers?page=3"]
  /\ url.RawQuery (baseURL +:+ "/coins/bitcoin#x/tickers?page=3") = ""
  /\ ∀ page r, r ∈ requests (mock.always 200 "{}")
                     (CoinsIDTickers mock.client () "bitcoin#x" page) 0%nat ->
       url.RawQuery (URL r) = "".
Proof.
  split; [by vm_compute|]. split; [by vm_compute|].
  exact (proj1 (proj2 (unescaped_id_drops_the_query (mock.always 200 "{}") mock.client
                         () "bitcoin" "x" 0%nat
                         (conj eq_refl eq_refl) (conj eq_refl eq_refl)))).
Defined.

End FurtherOnTheTestDouble.
